(** * pypeline: declarative pipelines with ordered stages

    A shallow embedding of [pipeline.py]: the stage decorator [Stage] with its
    class-level counter, the attribute placeholder [Attribute], the class
    decorator [Pipeline] (its inner [wrap]) together with the constructor it
    generates, and the runtime [PipelineImpl] / [StageImpl].

    Conventions of the embedding.
    - A Python [dict] keeps insertion order, so it is an association list
      ([pydict]) with Python's update-in-place / append-at-end assignment.
    - [print] appends one line to standard output; a computation that can
      print, change the program state and raise is a function from the state
      to a [reply] (lines printed, new state, result or exception).
    - Python integers are unbounded: [Z] without wrap-around.
    - A pipeline definition is a class body without base classes (the source
      leaves parent classes as a TODO), so [getattr(cls, name, None)] looks
      in the class's own namespace and then at what [object] and the
      metaclass [type] provide. *)

From Stdlib Require Import List String Ascii ZArith Bool Lia.
From Stdlib Require Import Sorting.Sorted Sorting.Permutation.
From Stdlib Require Import DecimalString.
Import ListNotations.
Open Scope string_scope.
Open Scope Z_scope.

Set Implicit Arguments.
Set Warnings "-register-all".

(** ** Ordered dictionaries *)

Module PyDict.
Section Dict.
Variable V : Type.

Definition pydict := list (string * V).

Fixpoint get (d : pydict) (k : string) : option V :=
  match d with
  | [] => None
  | (k', v) :: d' => if String.eqb k' k then Some v else get d' k
  end.

Definition mem (d : pydict) (k : string) : bool :=
  match get d k with Some _ => true | None => false end.

(** [d[k] = v]: an existing key keeps its position, a new key goes last. *)
Fixpoint set (d : pydict) (k : string) (v : V) : pydict :=
  match d with
  | [] => [(k, v)]
  | (k', v') :: d' =>
      if String.eqb k' k then (k', v) :: d' else (k', v') :: set d' k v
  end.

Definition keys (d : pydict) : list string := map fst d.

Definition values (d : pydict) : list V := map snd d.
End Dict.
End PyDict.

Abbreviation pydict := PyDict.pydict.

(** ** Exceptions *)

(** The two built-in exception classes the module can produce, with what they
    report, and exceptions raised by user code, which the embedding carries
    around without looking inside. *)
Inductive syntax_error : Type :=
| RequiredWithDefault
    (* "An attribute can't, at the same time, be required and have a default value." *)
| MissingType (cls name : string)
    (* "{cls}.{name} has been defined but it's missing a type!" *)
| DuplicateArgument (name : string)
    (* compiling the generated [__init__]: a parameter called like [self] *)
| NonDefaultAfterDefault (name : string).
    (* compiling the generated [__init__]: [name] has no default, an earlier parameter has *)

Inductive type_error : Type :=
| UnexpectedKeyword (name : string)
| MultipleValues (name : string)
| TooManyPositional (given : nat)
| MissingArguments (names : list string)
| ShadowedBuiltin (name : string)
    (* the generated body evaluates [super(PipelineClass, self)] with one of
       the two names bound to a parameter *)
| NotCallable.
    (* calling a value that is no function *)

Section Python.

(** [Obj]: the objects calls pass, return and raise, which this module never
    inspects.  [World]: the mutable program state stage actions work on. *)
Variable Obj : Type.
Variable World : Type.

Inductive exn : Type :=
| SyntaxError (e : syntax_error)
| TypeError (e : type_error)
| Raised (e : Obj).

Inductive result (A : Type) : Type :=
| Return (a : A)
| Raise (e : exn).
Arguments Return {A} a.
Arguments Raise {A} e.

(** ** Effectful computations: printing, state, exceptions *)

Record reply (A : Type) : Type := Reply {
  stdout : list string;
  world : World;
  outcome : result A
}.

Definition M (A : Type) : Type := World -> reply A.

Definition ret {A} (a : A) : M A := fun w => Reply [] w (Return a).

Definition bind {A B} (m : M A) (k : A -> M B) : M B :=
  fun w =>
    let r := m w in
    match outcome r with
    | Return a =>
        let r' := k a (world r) in
        Reply (stdout r ++ stdout r') (world r') (outcome r')
    | Raise e => Reply (stdout r) (world r) (Raise e)
    end.

Definition print (line : string) : M unit :=
  fun w => Reply [line] w (Return tt).

Notation "x <- m ;; k" := (bind m (fun x => k))
  (at level 61, m at next level, right associativity).
Notation "m ;;; k" := (bind m (fun _ => k))
  (at level 61, right associativity).

(** ** Functions and the [Stage] decorator *)

(** A function object: what calling it does, and the two attributes
    [Stage.__call__] may have put on it. *)
Record pyfunction : Type := PyFunction {
  fn_call : list Obj -> pydict Obj -> M Obj;
  fn_stage : option (string * Z)
    (* [__stage_name__] and [__stage_order__]: set together, and only by
       [Stage.__call__] *)
}.

(** [class Stage]: an instance holds [name] and [order]. *)
Record Stage : Type := MkStage {
  stage_name : string;
  stage_order : Z
}.

(** [Stage.__init__], threading the class attribute [Stage.next_identifier]. *)
Definition Stage_init (name : string) (next_identifier : Z) : Stage * Z :=
  (MkStage name next_identifier, next_identifier + 1).

(** [Stage.__call__]: the wrapper forwards its arguments and carries the
    stage's name and order. *)
Definition Stage_call (self : Stage) (function : pyfunction) : pyfunction :=
  let wrapper := fun args kwargs => fn_call function args kwargs in
  PyFunction wrapper (Some (stage_name self, stage_order self)).

(** Module-level code as far as the counter is concerned: a sequence of
    decorated definitions [@Stage(label) def action], each in the body of
    some class ([owner]).  Every decorator expression builds one [Stage] and
    applies it once. *)
Record declaration : Type := MkDeclaration {
  owner : string;
  label : string;
  action : pyfunction
}.

Definition decorate (d : declaration) (next_identifier : Z) : pyfunction * Z :=
  let '(stage, next_identifier') := Stage_init (label d) next_identifier in
  (Stage_call stage (action d), next_identifier').

Fixpoint declare_all (ds : list declaration) (next_identifier : Z)
  : list (declaration * pyfunction) * Z :=
  match ds with
  | [] => ([], next_identifier)
  | d :: ds' =>
      let '(f, n1) := decorate d next_identifier in
      let '(rest, n2) := declare_all ds' n1 in
      ((d, f) :: rest, n2)
  end.

(** [__stage_order__] of a function, when it has one. *)
Definition order_of (f : pyfunction) : option Z :=
  option_map snd (fn_stage f).

(** ** Values found in class bodies and passed to constructors *)

Record AttributeOf (V : Type) : Type := MkAttribute {
  name : string;
  type : string;
  required : bool;
  description : string;
  default : V
}.

Inductive value : Type :=
| VNone
| VBool (b : bool)
| VInt (z : Z)
| VStr (s : string)
| VAttribute (a : AttributeOf value)
| VFunction (f : pyfunction)
| VTypeMro.
    (* the built-in method [mro] of a class, which every class has from its
       metaclass *)

(** [class Attribute] *)
Definition Attribute : Type := AttributeOf value.

Definition is_None (v : value) : bool :=
  match v with VNone => true | _ => false end.

(** [isinstance(v, Attribute)] *)
Definition is_Attribute (v : value) : bool :=
  match v with VAttribute _ => true | _ => false end.

(** [Attribute.__init__]: [required] is set to [False] before the test that
    reads it. *)
Definition Attribute_init (name : string) (a_type : string)
    (description : string) (default : value) : result Attribute :=
  let self_required := false in
  if self_required && negb (is_None default)
  then Raise (SyntaxError RequiredWithDefault)
  else Return (MkAttribute name a_type self_required description default).

(** ** [StageImpl] *)

(** A bound method: the function and the instance it is bound to. *)
Record method : Type := Method {
  m_func : pyfunction;
  m_self : Obj
}.

Definition call_method (m : method) (args : list Obj) (kwargs : pydict Obj)
  : M Obj :=
  fn_call (m_func m) (m_self m :: args) kwargs.

Record StageImpl : Type := MkStageImpl {
  si_name : string;
  si_order : Z;
  si_pipeline : Obj;
  si_function : method
}.

(** [StageImpl.__init__]; [None] when the method carries no stage metadata
    (the caller filters those out beforehand). *)
Definition StageImpl_init (pipeline : Obj) (function : method)
  : option StageImpl :=
  match fn_stage (m_func function) with
  | Some (n, o) => Some (MkStageImpl n o pipeline function)
  | None => None
  end.

Definition StageImpl_eq (self other : StageImpl) : bool :=
  si_order self =? si_order other.

Definition StageImpl_lt (self other : StageImpl) : bool :=
  si_order self <? si_order other.

Definition running (n : string) : string := "[" ++ n ++ "] Running...".
Definition executed (n : string) : string := "[" ++ n ++ "] Executed.".

(** [StageImpl.run] *)
Definition StageImpl_run (self : StageImpl) (args : list Obj)
    (kwargs : pydict Obj) : M unit :=
  print (running (si_name self)) ;;;
  call_method (si_function self) args kwargs ;;;
  print (executed (si_name self)).

(** [list.sort()]: stable, and decided by [__lt__] alone. *)
Fixpoint insert_stage (x : StageImpl) (l : list StageImpl) : list StageImpl :=
  match l with
  | [] => [x]
  | y :: l' => if StageImpl_lt y x then y :: insert_stage x l' else x :: l
  end.

Definition sort_stages (l : list StageImpl) : list StageImpl :=
  fold_right insert_stage [] l.

(** ** The class decorator [Pipeline] *)

(** A decorated class as [wrap] sees it: how it prints ([str(cls)]), its
    [__annotations__] and the entries of its namespace ([cls.__dict__]). *)
Record classdef : Type := MkClass {
  cls_repr : string;
  cls_annotations : pydict string;
  cls_dict : pydict value
}.

(** [getattr(cls, name, None)] on a class without base classes whose
    namespace is [d].  A name the namespace lacks is looked for on [object]
    and on the metaclass: of the names without a leading underscore these
    provide [mro] alone; the names with one that they provide are values
    that are no placeholders, never [wrap]'s defaults (the first loop skips
    such names) and read by its [isinstance] tests only. *)
Definition getattr (d : pydict value) (n : string) : value :=
  match PyDict.get d n with
  | Some v => v
  | None => if String.eqb n "mro" then VTypeMro else VNone
  end.

(** Reading the local variable [n] of the generated [__init__]. *)
Definition local_value (locals : pydict value) (n : string) : value :=
  match PyDict.get locals n with Some v => v | None => VNone end.

(** [name.startswith("_")] *)
Definition startswith_underscore (n : string) : bool :=
  match n with
  | String c _ => Ascii.eqb c "_"%char
  | EmptyString => false
  end.

(** First loop of [wrap]: one [Attribute] per annotation that is not
    underscored, the placeholder itself when the class gives one. *)
Fixpoint find_attributes (d : pydict value) (annotations : pydict string)
  : result (list Attribute) :=
  match annotations with
  | [] => Return []
  | (n, type_) :: rest =>
      if startswith_underscore n then find_attributes d rest
      else
        let default := getattr d n in
        let made :=
          match default with
          | VAttribute a => Return a
          | _ => Attribute_init n type_ "" default
          end in
        match made with
        | Raise e => Raise e
        | Return attribute =>
            match find_attributes d rest with
            | Raise e => Raise e
            | Return cls_attributes => Return (attribute :: cls_attributes)
            end
        end
  end.

(** Second loop of [wrap]: fill [attributes] and put the default in place of
    each placeholder found under an attribute's name. *)
Fixpoint store_attributes (cls_attributes : list Attribute)
    (attributes : pydict Attribute) (d : pydict value)
  : pydict Attribute * pydict value :=
  match cls_attributes with
  | [] => (attributes, d)
  | attribute :: rest =>
      let attributes' := PyDict.set attributes (name attribute) attribute in
      let d' :=
        if is_Attribute (getattr d (name attribute))
        then PyDict.set d (name attribute) (default attribute)
        else d in
      store_attributes rest attributes' d'
  end.

(** Third loop of [wrap]: the first placeholder left without an attribute. *)
Fixpoint misdefined (items : pydict value) (attributes : pydict Attribute)
  : option string :=
  match items with
  | [] => None
  | (n, v) :: rest =>
      if is_Attribute v && negb (PyDict.mem attributes n) then Some n
      else misdefined rest attributes
  end.

(** A parameter of the generated [__init__]: [name] or
    [name=_default_name]. *)
Definition parameter : Type := (string * option value)%type.

Definition init_args (attributes : pydict Attribute) : list parameter :=
  map (fun '(n, attribute) =>
         if required attribute then (n, None)
         else (n, Some (default attribute)))
      attributes.

(** Compiling [def __init__(self, ...)] fails when a parameter without
    default follows one with a default, or when a parameter repeats
    [self]; the other parameter names are distinct dictionary keys. *)
Fixpoint nondefault_after_default (ps : list parameter) (seen_default : bool)
  : option string :=
  match ps with
  | [] => None
  | (n, None) :: rest =>
      if seen_default then Some n else nondefault_after_default rest false
  | (_, Some _) :: rest => nondefault_after_default rest true
  end.

Definition exec_init (ps : list parameter) : result (list parameter) :=
  match nondefault_after_default ps false with
  | Some n => Raise (SyntaxError (NonDefaultAfterDefault n))
  | None =>
      if existsb (fun p => String.eqb (fst p) "self") ps
      then Raise (SyntaxError (DuplicateArgument "self"))
      else Return ps
  end.

(** [PipelineClass]: the class after [wrap] has rewritten its placeholders,
    its [__pipeline_attributes__], and the signature of its [__init__]. *)
Record PipelineClass : Type := MkPipelineClass {
  pc_repr : string;
  pc_dict : pydict value;
  pipeline_attributes : pydict Attribute;
  pc_init_args : list parameter
}.

Definition wrap (cls : classdef) : result PipelineClass :=
  match find_attributes (cls_dict cls) (cls_annotations cls) with
  | Raise e => Raise e
  | Return cls_attributes =>
      let '(attributes, d) :=
        store_attributes cls_attributes [] (cls_dict cls) in
      match misdefined d attributes with
      | Some n => Raise (SyntaxError (MissingType (cls_repr cls) n))
      | None =>
          match exec_init (init_args attributes) with
          | Raise e => Raise e
          | Return ps => Return (MkPipelineClass (cls_repr cls) d attributes ps)
          end
      end
  end.

(** [Pipeline(_cls=None)]: used with parentheses it returns the decorator,
    without them it applies it. *)
Definition Pipeline (_cls : option classdef)
  : (classdef -> result PipelineClass) + result PipelineClass :=
  match _cls with
  | None => inl wrap
  | Some cls => inr (wrap cls)
  end.

(** ** [PipelineImpl] and the generated constructor *)

Record PipelineInstance : Type := MkInstance {
  inst_self : Obj;
  inst_dict : pydict value;
  stages : list StageImpl
}.

(** Names an instance of [PipelineClass] resolves in [PipelineClass] or
    [PipelineImpl], which come before the decorated class in the method
    resolution order. *)
Definition PipelineImpl_names : list string :=
  ["__dict__"; "__doc__"; "__init__"; "__module__"; "__slots__";
   "__stages__"; "__weakref__"; "start"].

Definition method_filter (m : method) : bool :=
  match fn_stage (m_func m) with Some _ => true | None => false end.

Fixpoint insert_member (x : string * method) (l : list (string * method))
  : list (string * method) :=
  match l with
  | [] => [x]
  | y :: l' =>
      if String.leb (fst x) (fst y) then x :: l else y :: insert_member x l'
  end.

(** The functions of the class namespace seen as bound methods of [self]. *)
Fixpoint bound_methods (self : Obj) (d : pydict value)
  : list (string * method) :=
  match d with
  | [] => []
  | (n, VFunction f) :: rest =>
      if existsb (String.eqb n) PipelineImpl_names
      then bound_methods self rest
      else (n, Method f self) :: bound_methods self rest
  | _ :: rest => bound_methods self rest
  end.

(** [inspect.getmembers(self, method_filter)]: sorted by name. *)
Definition getmembers (self : Obj) (d : pydict value)
  : list (string * method) :=
  filter (fun nm => method_filter (snd nm))
         (fold_right insert_member [] (bound_methods self d)).

Fixpoint append_stages (self : Obj) (members : list (string * method))
  : list StageImpl :=
  match members with
  | [] => []
  | (_, m) :: rest =>
      match StageImpl_init self m with
      | Some s => s :: append_stages self rest
      | None => append_stages self rest
      end
  end.

(** [PipelineImpl.__init__]: the value of [self.__stages__]. *)
Definition PipelineImpl_init (self : Obj) (d : pydict value)
  : list StageImpl :=
  sort_stages (append_stages self (getmembers self d)).

(** Binding the arguments of a call to the parameters after [self]:
    positional arguments first, then keywords, then defaults.  [self]
    itself is bound to the new object, so a keyword of that name gives it a
    second value. *)
Fixpoint bind_positional (ps : list parameter) (args : list value)
  : pydict value :=
  match ps, args with
  | (n, _) :: ps', v :: args' => (n, v) :: bind_positional ps' args'
  | _, _ => []
  end.

Fixpoint bind_keywords (ps : list parameter) (bound : pydict value)
    (kwargs : pydict value) : result (pydict value) :=
  match kwargs with
  | [] => Return bound
  | (k, v) :: rest =>
      if String.eqb k "self" then Raise (TypeError (MultipleValues k))
      else if negb (PyDict.mem ps k)
      then Raise (TypeError (UnexpectedKeyword k))
      else if PyDict.mem bound k then Raise (TypeError (MultipleValues k))
      else bind_keywords ps (bound ++ [(k, v)])%list rest
  end.

Definition missing_arguments (ps : list parameter) (bound : pydict value)
  : list string :=
  map fst
      (filter (fun p : parameter =>
                 negb (PyDict.mem bound (fst p)) &&
                 match snd p with None => true | Some _ => false end)
              ps).

Fixpoint fill_locals (ps : list parameter) (bound : pydict value)
  : pydict value :=
  match ps with
  | [] => []
  | (n, dflt) :: ps' =>
      let v :=
        match PyDict.get bound n, dflt with
        | Some v, _ => v
        | None, Some v => v
        | None, None => VNone
        end in
      (n, v) :: fill_locals ps' bound
  end.

Definition bind_arguments (ps : list parameter) (args : list value)
    (kwargs : pydict value) : result (pydict value) :=
  match bind_keywords ps (bind_positional ps args) kwargs with
  | Raise e => Raise e
  | Return bound =>
      if (List.length ps <? List.length args)%nat
      then Raise (TypeError (TooManyPositional (List.length args)))
      else
        match missing_arguments ps bound with
        | [] => Return (fill_locals ps bound)
        | names => Raise (TypeError (MissingArguments names))
        end
  end.

(** The statements [self.{name}={name}] of the generated body. *)
Fixpoint assign_fields (names : list string) (locals : pydict value)
    (d : pydict value) : pydict value :=
  match names with
  | [] => d
  | n :: rest =>
      assign_fields rest locals (PyDict.set d n (local_value locals n))
  end.

(** Calling [PipelineClass] with positional and keyword arguments: the
    generated [__init__] run on the fresh object [self].  Its first
    statement, [super(PipelineClass, self).__init__()], names [super] and
    [PipelineClass]; a parameter called like one of them hides it.
    - [super] bound to a value that is no function: calling it raises
      [TypeError] ([type.mro] is callable but takes no arguments).
    - [super] bound to a function: the body calls that function and then
      [__init__] on whatever it returns, [PipelineImpl.__init__] never runs;
      the embedding does not follow that call and gives no answer ([None]).
    - [PipelineClass] bound to a parameter: none of the values is a class,
      and the built-in [super] raises [TypeError]. *)
Definition construct (pc : PipelineClass) (self : Obj) (args : list value)
    (kwargs : pydict value) : option (result PipelineInstance) :=
  match bind_arguments (pc_init_args pc) args kwargs with
  | Raise e => Some (Raise e)
  | Return locals =>
      match PyDict.get locals "super" with
      | Some (VFunction _) => None
      | Some _ => Some (Raise (TypeError (ShadowedBuiltin "super")))
      | None =>
          if PyDict.mem locals "PipelineClass"
          then Some (Raise (TypeError (ShadowedBuiltin "PipelineClass")))
          else
            let stages := PipelineImpl_init self (pc_dict pc) in
            let d :=
              assign_fields (PyDict.keys (pipeline_attributes pc)) locals [] in
            Some (Return (MkInstance self d stages))
      end
  end.

Fixpoint for_each {A} (l : list A) (body : A -> M unit) : M unit :=
  match l with
  | [] => ret tt
  | x :: l' => body x ;;; for_each l' body
  end.

(** [PipelineImpl.start], the method itself. *)
Definition start (self : PipelineInstance) : M unit :=
  for_each (stages self) (fun stage => StageImpl_run stage [] []).

Definition raise {A} (e : exn) : M A := fun w => Reply [] w (Raise e).

(** The statement [instance.start()].  A function is no data descriptor, so
    an entry [start] of the instance's own [__dict__] (the constructor
    assigns one when the definition has an attribute of that name) comes
    before the method of the class, and it is that value which is called,
    without arguments. *)
Definition call_start (instance : PipelineInstance) : M unit :=
  match PyDict.get (inst_dict instance) "start" with
  | None => start instance
  | Some (VFunction f) => fn_call f [] [] ;;; ret tt
  | Some VTypeMro => ret tt
  | Some _ => raise (TypeError NotCallable)
  end.

(** ** Vocabulary for the statements about [wrap] and the constructor *)

(** The annotations the first loop of [wrap] does not skip. *)
Definition public_fields (annotations : pydict string) : pydict string :=
  filter (fun f => negb (startswith_underscore (fst f))) annotations.

(** The attribute that loop makes for one of them: the placeholder the class
    gives under that name, or one inferred from the annotation and the
    class-level value. *)
Definition attribute_of (d : pydict value) (f : string * string) : Attribute :=
  match getattr d (fst f) with
  | VAttribute a => a
  | v => MkAttribute (fst f) (snd f) false "" v
  end.

(** The third loop of [wrap] finds nothing to reject. *)
Definition check_passes (cls : classdef) : Prop :=
  let l := map (attribute_of (cls_dict cls))
               (public_fields (cls_annotations cls)) in
  misdefined (snd (store_attributes l [] (cls_dict cls)))
             (fst (store_attributes l [] (cls_dict cls))) = None.

(** The decorated class as a later [wrap] would find it: the same
    annotations, the namespace as the first [wrap] left it. *)
Definition processed (cls : classdef) (pc : PipelineClass) : classdef :=
  MkClass (cls_repr cls) (cls_annotations cls) (pc_dict pc).

(** A namespace in which no value is a placeholder. *)
Definition no_placeholder (d : pydict value) : Prop :=
  forall k v, In (k, v) d -> is_Attribute v = false.

(** The constructor's own account of a call, used in the proofs: what its
    binding gives a parameter before the defaults are filled in.  The
    statements speak of [given] and [not_given] below instead. *)
Definition supplied (ps : list parameter) (args : list value)
    (kwargs : pydict value) (n : string) : option value :=
  match PyDict.get (bind_positional ps args) n with
  | Some v => Some v
  | None => PyDict.get kwargs n
  end.

(** The same for a whole call: it names only parameters, gives none of them
    twice and does not pass more positional arguments than there are
    parameters.  The statements speak of [orderly_call] below instead. *)
Definition well_formed_call (ps : list parameter) (args : list value)
    (kwargs : pydict value) : Prop :=
  (List.length args <= List.length ps)%nat
  /\ NoDup (PyDict.keys kwargs)
  /\ (forall k, In k (PyDict.keys kwargs) ->
        In k (PyDict.keys ps)
        /\ PyDict.get (bind_positional ps args) k = None).

(** What a call gives an attribute, said without the constructor: [names]
    are the attribute names in the order of the schema.  The call gives [n]
    the value [v] when [v] stands at the position of [n] among the
    positional arguments, or under the keyword [n]. *)
Definition given (names : list string) (args : list value)
    (kwargs : pydict value) (n : string) (v : value) : Prop :=
  (exists i, nth_error names i = Some n /\ nth_error args i = Some v)
  \/ PyDict.get kwargs n = Some v.

(** The call gives [n] no value: no positional argument reaches its
    position and no keyword names it. *)
Definition not_given (names : list string) (args : list value)
    (kwargs : pydict value) (n : string) : Prop :=
  (forall i, nth_error names i = Some n -> nth_error args i = None)
  /\ PyDict.get kwargs n = None.

(** A call with no more positional arguments than attributes, whose keywords
    are distinct attribute names, none of them already reached by a
    positional argument. *)
Definition orderly_call (names : list string) (args : list value)
    (kwargs : pydict value) : Prop :=
  (List.length args <= List.length names)%nat
  /\ NoDup (PyDict.keys kwargs)
  /\ forall k, In k (PyDict.keys kwargs) ->
       In k names
       /\ forall i, nth_error names i = Some k -> nth_error args i = None.

(** ** What a sequential run looks like *)

(** [Runs l w outs w']: the actions of the stages [l], called one after the
    other without arguments, each from the state its predecessor left, all
    return; [outs] is what each one printed and [w'] the final state. *)
Inductive Runs : list StageImpl -> World -> list (list string) -> World -> Prop :=
| Runs_nil : forall w, Runs [] w [] w
| Runs_cons : forall s l w out w1 v outs w',
    call_method (si_function s) [] [] w = Reply out w1 (Return v) ->
    Runs l w1 outs w' ->
    Runs (s :: l) w (out :: outs) w'.

(** The lines a successful run prints: around each action's own output, the
    two events of its stage. *)
Fixpoint run_log (l : list StageImpl) (outs : list (list string))
  : list string :=
  match l, outs with
  | s :: l', out :: outs' =>
      (running (si_name s) :: out ++ [executed (si_name s)]) ++ run_log l' outs'
  | _, _ => []
  end.

(** The stage events alone. *)
Definition stage_events (l : list StageImpl) : list string :=
  flat_map (fun s => [running (si_name s); executed (si_name s)]) l.

Definition order_le (a b : StageImpl) : Prop := si_order a <= si_order b.

End Python.

Arguments Return {Obj A} a.
Arguments Raise {Obj A} e.
Arguments SyntaxError {Obj} e.
Arguments TypeError {Obj} e.
Arguments ret {Obj World A} a _.
Arguments print {Obj World} line _.
Arguments VNone {Obj World}.
Arguments VBool {Obj World} b.
Arguments VInt {Obj World} z.
Arguments VStr {Obj World} s.
Arguments VTypeMro {Obj World}.
Arguments raise {Obj World A} e _.

(** ** The module's own pipeline, [MyPipeline] *)

Module MyPipeline.

(** The objects of this program: [None], integers, strings, and the
    pipeline instance, which its methods read through [self]: such an object
    shows the two fields the constructor assigned. *)
Inductive obj : Type :=
| ONone
| OInt (z : Z)
| OStr (s : string)
| OSelf (changelist : obj) (value : obj).

Definition world : Type := unit.

Definition str_int (z : Z) : string :=
  NilZero.string_of_int (Z.to_int z).

(** What an f-string shows of a field. *)
Definition str (o : obj) : string :=
  match o with
  | ONone => "None"
  | OInt z => str_int z
  | OStr s => s
  | OSelf _ _ => "<MyPipeline object>"
  end.

Definition def (body : obj -> M obj world unit) : pyfunction obj world :=
  PyFunction
    (fun args _ =>
       match args with
       | [self] => bind (body self) (fun _ => ret ONone)
       | _ => ret ONone
       end)
    None.

Definition sync_body (self : obj) : M obj world unit :=
  match self with
  | OSelf changelist _ => print ("Sync version " ++ str changelist)
  | _ => ret tt
  end.

Definition build_body (self : obj) : M obj world unit :=
  match self with
  | OSelf _ value => print ("Build " ++ str value)
  | _ => ret tt
  end.

Definition submit_body (_ : obj) : M obj world unit :=
  print "Submit!".

(** The three decorators of the class body, run in order from the initial
    value of [Stage.next_identifier]. *)
Definition declarations : list (declaration obj world) :=
  [ MkDeclaration "MyPipeline" "Sync" (def sync_body);
    MkDeclaration "MyPipeline" "Build" (def build_body);
    MkDeclaration "MyPipeline" "Submit" (def submit_body) ].

Definition tagged : list (pyfunction obj world) :=
  map snd (fst (declare_all declarations 1)).

Definition member (i : nat) : value obj world :=
  match nth_error tagged i with
  | Some f => VFunction f
  | None => VNone
  end.

Definition cls : classdef obj world :=
  MkClass "<class '__main__.MyPipeline'>"
    [("changelist", "int"); ("value", "str")]
    [("value", VStr "Default.txt");
     ("sync", member 0); ("build", member 1); ("submit", member 2)].

Definition kwargs : pydict (value obj world) :=
  [("changelist", VInt 50); ("value", VStr "Hello.txt")].

(** [MyPipeline] after decoration. *)
Definition PipelineClass_ : PipelineClass obj world :=
  match wrap cls with
  | Return pc => pc
  | Raise _ => MkPipelineClass "" [] [] []
  end.

(** The receiver of the methods of [MyPipeline] called with the keyword
    arguments [kwargs]: the object whose
    fields are the ones the constructor assigns for these arguments (the
    program passes integers and strings only). *)
Definition as_obj (v : value obj world) : obj :=
  match v with
  | VInt z => OInt z
  | VStr s => OStr s
  | _ => ONone
  end.

Definition fields_of (kwargs : pydict (value obj world))
  : pydict (value obj world) :=
  match construct PipelineClass_ ONone [] kwargs with
  | Some (Return inst) => inst_dict inst
  | _ => []
  end.

Definition receiver (kwargs : pydict (value obj world)) : obj :=
  OSelf (as_obj (local_value (fields_of kwargs) "changelist"))
        (as_obj (local_value (fields_of kwargs) "value")).

Definition new (kwargs : pydict (value obj world))
  : PipelineInstance obj world :=
  match construct PipelineClass_ (receiver kwargs) [] kwargs with
  | Some (Return inst) => inst
  | _ => MkInstance (receiver kwargs) [] []
  end.

(** [MyPipeline(changelist=50, value="Hello.txt")] *)
Definition self : obj := receiver kwargs.

Definition pipeline : PipelineInstance obj world := new kwargs.

(** [MyPipeline(changelist=50)] *)
Definition defaulted : PipelineInstance obj world :=
  new [("changelist", VInt 50)].

End MyPipeline.

(** ** Further definitions used to exercise the decorator *)

Module Samples.

Inductive obj : Type :=
| ONone
| OError (message : string).

(** The state counts the stage actions that have completed. *)
Definition world : Type := nat.

Definition step (line : string) : pyfunction obj world :=
  PyFunction (fun _ _ w => Reply [line] (S w) (Return ONone)) None.

Definition failing (line message : string) : pyfunction obj world :=
  PyFunction (fun _ _ w => Reply [line] w (Raise (Raised (OError message))))
             None.

(** Stages declared in two classes, interleaved. *)
Definition interleaved : list (declaration obj world) :=
  [ MkDeclaration "Nightly" "Fetch" (step "fetching");
    MkDeclaration "Release" "Tag" (step "tagging");
    MkDeclaration "Nightly" "Build" (failing "building" "compiler crashed");
    MkDeclaration "Nightly" "Ship" (step "shipping") ].

Definition tagged_function (i : nat) : pyfunction obj world :=
  nth i (map snd (fst (declare_all interleaved 1))) (step "").

Definition tagged (i : nat) : value obj world :=
  VFunction (tagged_function i).

(** The stage an instance [ONone] gets from the [i]-th of them. *)
Definition stage_of (i : nat) (n : string) (o : Z) : StageImpl obj world :=
  MkStageImpl n o ONone (Method (tagged_function i) ONone).

(** A pipeline whose second stage raises. *)
Definition Nightly : classdef obj world :=
  MkClass "<class '__main__.Nightly'>"
    [("target", "str")]
    [("target", VStr "all");
     ("fetch", tagged 0); ("build", tagged 2); ("ship", tagged 3)].

(** A placeholder whose [required] slot has been assigned [True] after it
    was built, without and with a default. *)
Definition required_changelist : Attribute obj world :=
  MkAttribute "changelist" "int" true "" VNone.

Definition required_with_default : Attribute obj world :=
  MkAttribute "changelist" "int" true "" (VInt 5).

Definition Required : classdef obj world :=
  MkClass "<class '__main__.Required'>"
    [("changelist", "int"); ("value", "str")]
    [("changelist", VAttribute required_changelist);
     ("value", VStr "Default.txt")].

Definition Conflicting : classdef obj world :=
  MkClass "<class '__main__.Conflicting'>"
    [("changelist", "int"); ("value", "str")]
    [("changelist", VAttribute required_with_default);
     ("value", VStr "Default.txt")].

(** A placeholder under a name the class does not annotate. *)
Definition Untyped : classdef obj world :=
  MkClass "<class '__main__.Untyped'>"
    [("value", "str")]
    [("value", VStr "Default.txt");
     ("changelist",
      VAttribute (MkAttribute "changelist" "int" false "" VNone))].

(** An underscored annotation next to a public one. *)
Definition Private : classdef obj world :=
  MkClass "<class '__main__.Private'>"
    [("_cache", "dict"); ("value", "str")]
    [("_cache", VInt 0); ("value", VStr "Default.txt")].

(** A defaulted field before a required one. *)
Definition Misordered : classdef obj world :=
  MkClass "<class '__main__.Misordered'>"
    [("value", "str"); ("changelist", "int")]
    [("value", VStr "Default.txt");
     ("changelist", VAttribute required_changelist)].

(** A public field called like the receiver. *)
Definition SelfField : classdef obj world :=
  MkClass "<class '__main__.SelfField'>"
    [("self", "int")]
    [("self", VInt 1)].

(** A placeholder with a description and a default, next to a plain field
    and two tagged methods that share the stage built first. *)
Definition described_target : Attribute obj world :=
  MkAttribute "target" "str" false "what to build" (VStr "all").

Definition shared : Stage := fst (Stage_init "Shared" 7).

Definition Described : classdef obj world :=
  MkClass "<class '__main__.Described'>"
    [("target", "str"); ("jobs", "int")]
    [("target", VAttribute described_target);
     ("jobs", VInt 4);
     ("second", VFunction (Stage_call shared (step "second")));
     ("first", VFunction (Stage_call shared (step "first")));
     ("helper", VFunction (step "helper"))].

(** Two required placeholders. *)
Definition BothRequired : classdef obj world :=
  MkClass "<class '__main__.BothRequired'>"
    [("changelist", "int"); ("branch", "str")]
    [("changelist", VAttribute required_changelist);
     ("branch", VAttribute (MkAttribute "branch" "str" true "" VNone))].

(** An annotated field without value whose name the metaclass knows. *)
Definition Resolution : classdef obj world :=
  MkClass "<class '__main__.Resolution'>"
    [("mro", "list"); ("depth", "int")]
    [].

(** A public field called like the method that runs the pipeline. *)
Definition Shadowing : classdef obj world :=
  MkClass "<class '__main__.Shadowing'>"
    [("start", "int")]
    [("start", VInt 0); ("fetch", tagged 0)].

Definition decorated (cls : classdef obj world) : PipelineClass obj world :=
  match wrap cls with
  | Return pc => pc
  | Raise _ => MkPipelineClass "" [] [] []
  end.

Definition instance (cls : classdef obj world)
    (kwargs : pydict (value obj world)) : PipelineInstance obj world :=
  match construct (decorated cls) ONone [] kwargs with
  | Some (Return inst) => inst
  | _ => MkInstance ONone [] []
  end.

(** [Described("docs", 2)] *)
Definition positional : PipelineInstance obj world :=
  match construct (decorated Described) ONone [VStr "docs"; VInt 2] [] with
  | Some (Return inst) => inst
  | _ => MkInstance ONone [] []
  end.

End Samples.

(** * Properties *)

(** ** Dictionary facts *)

Module PyDictFacts.
Section Facts.
Variable V : Type.
Implicit Types (d : pydict V) (k n : string) (v : V).

Lemma get_set d k v n :
  PyDict.get (PyDict.set d k v) n =
  if String.eqb k n then Some v else PyDict.get d n.
Proof.
  induction d as [|[k' v'] d IH]; simpl.
  - reflexivity.
  - destruct (String.eqb k' k) eqn:Ek; simpl.
    + apply String.eqb_eq in Ek; subst k'.
      destruct (String.eqb k n); reflexivity.
    + rewrite IH. destruct (String.eqb k' n) eqn:En; [|reflexivity].
      apply String.eqb_eq in En; subst k'.
      now rewrite String.eqb_sym, Ek.
Qed.

Lemma get_app d d' n :
  PyDict.get (d ++ d')%list n =
  match PyDict.get d n with Some v => Some v | None => PyDict.get d' n end.
Proof.
  induction d as [|[k' v'] d IH]; simpl; [reflexivity|].
  now destruct (String.eqb k' n).
Qed.

Lemma get_In d n v : PyDict.get d n = Some v -> In (n, v) d.
Proof.
  induction d as [|[k' v'] d IH]; simpl; [discriminate|].
  destruct (String.eqb k' n) eqn:E.
  - apply String.eqb_eq in E; subst. intros [= ->]. now left.
  - auto.
Qed.

Lemma get_None_iff d n : PyDict.get d n = None <-> ~ In n (PyDict.keys d).
Proof.
  induction d as [|[k' v'] d IH]; simpl; [tauto|].
  destruct (String.eqb k' n) eqn:E.
  - apply String.eqb_eq in E. split; [discriminate|]. intros H; destruct H; auto.
  - apply String.eqb_neq in E. rewrite IH. tauto.
Qed.

Lemma mem_In d n : PyDict.mem d n = true <-> In n (PyDict.keys d).
Proof.
  unfold PyDict.mem. pose proof (get_None_iff d n) as H.
  destruct (PyDict.get d n).
  - split; [intros _|reflexivity].
    destruct (in_dec string_dec n (PyDict.keys d)) as [i|ni]; [exact i|].
    apply H in ni. discriminate.
  - split; [discriminate|]. intros Hin. now apply H in Hin.
Qed.

Lemma keys_set_In d k v n :
  In n (PyDict.keys (PyDict.set d k v)) <-> n = k \/ In n (PyDict.keys d).
Proof.
  rewrite <- !mem_In. unfold PyDict.mem. rewrite get_set.
  destruct (String.eqb k n) eqn:E.
  - apply String.eqb_eq in E. split; auto.
  - apply String.eqb_neq in E. split; auto. intros [->|]; [congruence|auto].
Qed.

Lemma keys_set_fresh d k v :
  ~ In k (PyDict.keys d) -> PyDict.set d k v = (d ++ [(k, v)])%list.
Proof.
  induction d as [|[k' v'] d IH]; simpl; intros H; [reflexivity|].
  destruct (String.eqb k' k) eqn:E.
  - apply String.eqb_eq in E. tauto.
  - f_equal. apply IH. tauto.
Qed.
End Facts.
End PyDictFacts.

Section StageProperties.

Variable Obj : Type.
Variable World : Type.

(** C7.  Tagging is transparent: the function [Stage.__call__] returns,
    called with any positional and keyword arguments in any state, prints,
    changes the state and returns or raises exactly as the function it wraps;
    what it adds is the stage's name and order. *)
Theorem Stage_call_transparent :
  forall (self : Stage) (function : pyfunction Obj World)
         (args : list Obj) (kwargs : pydict Obj) (w : World),
    fn_call (Stage_call self function) args kwargs w
      = fn_call function args kwargs w
    /\ fn_stage (Stage_call self function)
      = Some (stage_name self, stage_order self).
Proof.
  intros; split; reflexivity.
Qed.

(** C9.  [==] between two stages holds exactly when their orders are equal
    and [<] exactly when the first order is below the second; in particular
    two stages with one order are equal whatever their names, pipelines and
    functions. *)
Theorem StageImpl_compare_by_order :
  forall a b : StageImpl Obj World,
    (StageImpl_eq a b = true <-> si_order a = si_order b)
    /\ (StageImpl_lt a b = true <-> si_order a < si_order b)
    /\ (forall (n m : string) (p q : Obj) (f g : method Obj World),
          StageImpl_eq (MkStageImpl n (si_order a) p f)
                       (MkStageImpl m (si_order a) q g) = true).
Proof.
  intros a b. unfold StageImpl_eq, StageImpl_lt. simpl.
  repeat split; try apply Z.eqb_eq; try apply Z.ltb_lt; trivial.
  intros; apply Z.eqb_refl.
Qed.

(** Every decorator takes the current value of the counter and leaves it
    one higher. *)
Lemma declare_all_nth :
  forall (ds : list (declaration Obj World)) (n0 : Z) (i : nat) d f,
    nth_error (fst (declare_all ds n0)) i = Some (d, f) ->
    nth_error ds i = Some d /\ order_of f = Some (n0 + Z.of_nat i).
Proof.
  induction ds as [|d0 ds IH]; intros n0 i d f H.
  - destruct i; discriminate.
  - simpl in H. destruct (declare_all ds (n0 + 1)) as [rest n2] eqn:E.
    destruct i as [|i]; simpl in H.
    + injection H as <- <-. split; [reflexivity|].
      unfold order_of; simpl. f_equal. lia.
    + specialize (IH (n0 + 1) i d f). rewrite E in IH.
      destruct (IH H) as [H1 H2]. split; [exact H1|].
      rewrite H2. f_equal. lia.
Qed.

(** C4, as amended.  Of two decorated definitions that each build their own
    stage, as [@Stage(name)] does, the one declared first has the smaller
    order, whichever classes they are declared in and whatever the counter
    was when the run began. *)
Theorem declared_earlier_lower_order :
  forall (ds : list (declaration Obj World)) (n0 : Z) (i j : nat) a fa b fb,
    nth_error (fst (declare_all ds n0)) i = Some (a, fa) ->
    nth_error (fst (declare_all ds n0)) j = Some (b, fb) ->
    (i < j)%nat ->
    exists oa ob,
      order_of fa = Some oa /\ order_of fb = Some ob /\ oa < ob.
Proof.
  intros ds n0 i j a fa b fb Ha Hb Hij.
  apply declare_all_nth in Ha as [_ Ha].
  apply declare_all_nth in Hb as [_ Hb].
  exists (n0 + Z.of_nat i), (n0 + Z.of_nat j).
  repeat split; [assumption..|lia].
Qed.

End StageProperties.

(** ** Running a pipeline *)

Section Runtime.

Variable Obj : Type.
Variable World : Type.

Local Abbreviation stage := (StageImpl Obj World) (only parsing).

Lemma insert_stage_perm (x : stage) l :
  Permutation (insert_stage x l) (x :: l).
Proof.
  induction l as [|y l IH]; simpl; [reflexivity|].
  destruct (StageImpl_lt y x); [|reflexivity].
  rewrite IH. apply perm_swap.
Qed.

Lemma sort_stages_perm (l : list stage) : Permutation (sort_stages l) l.
Proof.
  induction l as [|x l IH]; simpl; [constructor|].
  rewrite insert_stage_perm. now constructor.
Qed.

Lemma insert_stage_sorted (x : stage) l :
  StronglySorted (@order_le Obj World) l ->
  StronglySorted (@order_le Obj World) (insert_stage x l).
Proof.
  induction 1 as [|y l Hs IH Hy]; simpl.
  - repeat constructor.
  - unfold StageImpl_lt. destruct (si_order y <? si_order x) eqn:E.
    + apply Z.ltb_lt in E. constructor; [exact IH|].
      eapply Permutation_Forall; [symmetry; apply insert_stage_perm|].
      constructor; [unfold order_le; lia|exact Hy].
    + apply Z.ltb_ge in E. constructor; [now constructor|].
      constructor; [exact E|].
      eapply Forall_impl; [|exact Hy]. unfold order_le; intros; lia.
Qed.

Lemma sort_stages_sorted (l : list stage) :
  StronglySorted (@order_le Obj World) (sort_stages l).
Proof.
  induction l; simpl; [constructor|now apply insert_stage_sorted].
Qed.

Lemma StageImpl_run_returns (s : stage) w v :
  outcome (call_method (si_function s) [] [] w) = Return v ->
  StageImpl_run s [] [] w =
  Reply (running (si_name s)
           :: stdout (call_method (si_function s) [] [] w)
           ++ [executed (si_name s)])
        (world (call_method (si_function s) [] [] w))
        (Return tt).
Proof.
  intros H. unfold StageImpl_run, bind, print; simpl. now rewrite H.
Qed.

Lemma StageImpl_run_raises (s : stage) w e :
  outcome (call_method (si_function s) [] [] w) = Raise e ->
  StageImpl_run s [] [] w =
  Reply (running (si_name s) :: stdout (call_method (si_function s) [] [] w))
        (world (call_method (si_function s) [] [] w))
        (Raise e).
Proof.
  intros H. unfold StageImpl_run, bind, print; simpl. now rewrite H.
Qed.

Lemma for_each_cons_returns (s : stage) l w v :
  outcome (call_method (si_function s) [] [] w) = Return v ->
  for_each (s :: l) (fun x => StageImpl_run x [] []) w =
  let c := call_method (si_function s) [] [] w in
  let r := for_each l (fun x => StageImpl_run x [] []) (world c) in
  Reply ((running (si_name s) :: stdout c ++ [executed (si_name s)])
           ++ stdout r)
        (world r) (outcome r).
Proof.
  intros H. cbn [for_each]. unfold bind at 1.
  rewrite (StageImpl_run_returns s w H). reflexivity.
Qed.

Lemma Runs_length (l : list stage) w outs w' :
  Runs l w outs w' -> List.length outs = List.length l.
Proof.
  induction 1; simpl; congruence.
Qed.

Lemma for_each_Runs (l : list stage) w outs w' :
  Runs l w outs w' ->
  for_each l (fun s => StageImpl_run s [] []) w =
  Reply (run_log l outs) w' (Return tt).
Proof.
  induction 1 as [w|s l w out w1 v outs w' Hr HR IH].
  - reflexivity.
  - rewrite (@for_each_cons_returns s l w v) by now rewrite Hr.
    cbv zeta. rewrite Hr. cbn [stdout world outcome].
    rewrite IH. reflexivity.
Qed.

Lemma for_each_app_returns (l1 l2 : list stage) w outs w1 :
  Runs l1 w outs w1 ->
  for_each (l1 ++ l2) (fun s => StageImpl_run s [] []) w =
  let r := for_each l2 (fun s => StageImpl_run s [] []) w1 in
  Reply (run_log l1 outs ++ stdout r) (world r) (outcome r).
Proof.
  induction 1 as [w|s l w out w1 v outs w' Hr HR IH].
  - simpl. now destruct (for_each l2 _ w).
  - rewrite <- app_comm_cons.
    rewrite (@for_each_cons_returns s (l ++ l2) w v) by now rewrite Hr.
    cbv zeta. rewrite Hr. cbn [stdout world outcome].
    rewrite IH. cbn [stdout world outcome run_log]. f_equal.
    now rewrite <- !app_assoc.
Qed.

Lemma run_log_length (l : list stage) outs :
  List.length outs = List.length l ->
  List.length (run_log l outs) =
  (2 * List.length l + List.length (List.concat outs))%nat.
Proof.
  revert outs; induction l as [|s l IH]; intros [|out outs] H;
    simpl in *; try discriminate; [reflexivity|].
  injection H as H. rewrite !length_app, (IH _ H). simpl. lia.
Qed.

Lemma run_log_silent (l : list stage) outs :
  List.length outs = List.length l ->
  Forall (fun out => out = []) outs ->
  run_log l outs = stage_events l.
Proof.
  revert outs; induction l as [|s l IH]; intros [|out outs] H Hs;
    simpl in *; try discriminate; [reflexivity|].
  injection H as H. inversion Hs as [|? ? -> Hs']; subst.
  simpl. now rewrite (IH _ H Hs').
Qed.

Lemma stage_events_length (l : list stage) :
  List.length (stage_events l) = (2 * List.length l)%nat.
Proof.
  unfold stage_events. induction l; simpl; [reflexivity|]. rewrite IHl. lia.
Qed.

(** What a call that returned an instance has gone through. *)
Lemma construct_Return (pc : PipelineClass Obj World) self args kwargs inst :
  construct pc self args kwargs = Some (Return inst) ->
  exists locals,
    bind_arguments (pc_init_args pc) args kwargs = Return locals
    /\ PyDict.get locals "super" = None
    /\ PyDict.mem locals "PipelineClass" = false
    /\ inst = MkInstance self
                (assign_fields (PyDict.keys (pipeline_attributes pc)) locals [])
                (PipelineImpl_init self (pc_dict pc)).
Proof.
  unfold construct.
  destruct (bind_arguments _ _ _) as [locals|]; [|discriminate].
  destruct (PyDict.get locals "super") as [v|] eqn:Es.
  - destruct v; discriminate.
  - destruct (PyDict.mem locals "PipelineClass") eqn:Ep; [discriminate|].
    intros [= <-]. exists locals. auto.
Qed.

Lemma construct_stages (pc : PipelineClass Obj World) self args kwargs inst :
  construct pc self args kwargs = Some (Return inst) ->
  stages inst = PipelineImpl_init self (pc_dict pc).
Proof.
  intros H. apply construct_Return in H as (locals & _ & _ & _ & ->).
  reflexivity.
Qed.

(** C1, as amended.  For an instance the constructor returned and that has
    no field called [start], [__stages__] holds the stage methods found on
    it, in ascending order; when their actions, called one after the other
    in that order, each from the state the previous one left, all return,
    calling [start()] on the instance returns having printed, for each
    stage in turn, its "Running..." line, whatever its action printed, and
    its "Executed." line: twice as many stage events as stages, and nothing
    else when the actions print nothing. *)
Theorem start_runs_stages_in_order :
  forall (pc : PipelineClass Obj World) self args kwargs inst w outs w',
    construct pc self args kwargs = Some (Return inst) ->
    PyDict.get (inst_dict inst) "start" = None ->
    Runs (stages inst) w outs w' ->
    StronglySorted (@order_le Obj World) (stages inst)
    /\ Permutation (stages inst)
         (append_stages self (getmembers self (pc_dict pc)))
    /\ call_start inst w = Reply (run_log (stages inst) outs) w' (Return tt)
    /\ List.length (run_log (stages inst) outs) =
         (2 * List.length (stages inst) + List.length (List.concat outs))%nat
    /\ (Forall (fun out => out = []) outs ->
        run_log (stages inst) outs = stage_events (stages inst))
    /\ List.length (stage_events (stages inst)) =
         (2 * List.length (stages inst))%nat.
Proof.
  intros pc self args kwargs inst w outs w' Hc Hstart HR.
  pose proof (construct_stages _ _ _ _ Hc) as Hs.
  pose proof (Runs_length HR) as Hl.
  repeat split.
  - rewrite Hs. apply sort_stages_sorted.
  - rewrite Hs. apply sort_stages_perm.
  - unfold call_start. rewrite Hstart. unfold start. now apply for_each_Runs.
  - now apply run_log_length.
  - now apply run_log_silent.
  - apply stage_events_length.
Qed.

(** C6.  When the stages before [s] have run and the action of [s] raises
    [e], [start] raises that same [e]; the output ends with what the failing
    action printed, after the "Running..." line of [s], and the state is the
    one that action left: no "Executed." line for [s], and nothing of the
    stages after it. *)
Theorem start_stops_at_failing_stage :
  forall (inst : PipelineInstance Obj World) l1 s l2 w outs w1 e,
    stages inst = (l1 ++ s :: l2)%list ->
    Runs l1 w outs w1 ->
    outcome (call_method (si_function s) [] [] w1) = Raise e ->
    start inst w =
    Reply (run_log l1 outs
             ++ running (si_name s)
             :: stdout (call_method (si_function s) [] [] w1))
          (world (call_method (si_function s) [] [] w1))
          (Raise e).
Proof.
  intros inst l1 s l2 w outs w1 e Hs HR He.
  unfold start. rewrite Hs, (for_each_app_returns (s :: l2) HR).
  cbv zeta. cbn [for_each]. unfold bind at 1 2 3.
  rewrite (StageImpl_run_raises s w1 He). reflexivity.
Qed.

End Runtime.

(** ** Processing a definition *)

Section Definition_processing.

Variable Obj : Type.
Variable World : Type.

Local Abbreviation value' := (value Obj World) (only parsing).
Local Abbreviation Attribute' := (Attribute Obj World) (only parsing).

Import PyDictFacts.

(** [Attribute.__init__] cannot raise: the guard reads the [False] it has
    just stored. *)
Lemma Attribute_init_returns n t desc (dflt : value') :
  Attribute_init n t desc dflt = Return (MkAttribute n t false desc dflt).
Proof. reflexivity. Qed.

Lemma find_attributes_spec (d : pydict value') annotations :
  find_attributes d annotations =
  Return (map (attribute_of d) (public_fields annotations)).
Proof.
  induction annotations as [|[n t] rest IH]; simpl; [reflexivity|].
  destruct (startswith_underscore n); simpl; [exact IH|].
  rewrite IH. unfold attribute_of; simpl.
  destruct (getattr d n); reflexivity.
Qed.

Lemma store_attributes_keys (l : list Attribute') A (d : pydict value') k :
  In k (PyDict.keys (fst (store_attributes l A d))) <->
  In k (PyDict.keys A) \/ In k (map (@name _) l).
Proof.
  revert A d; induction l as [|a l IH]; intros A d; simpl; [tauto|].
  rewrite IH, keys_set_In. intuition (subst; auto).
Qed.

Lemma store_attributes_fresh (l : list Attribute') A (d : pydict value') :
  NoDup (PyDict.keys A ++ map (@name _) l) ->
  fst (store_attributes l A d) = (A ++ map (fun a => (name a, a)) l)%list.
Proof.
  revert A d; induction l as [|a l IH]; intros A d H; simpl.
  - now rewrite app_nil_r.
  - assert (Hfresh : ~ In (name a) (PyDict.keys A)).
    { intros Hin. apply NoDup_remove_2 in H. apply H.
      apply in_or_app; now left. }
    rewrite IH.
    + rewrite (@keys_set_fresh _ A (name a) a Hfresh), <- app_assoc. reflexivity.
    + rewrite (@keys_set_fresh _ A (name a) a Hfresh). unfold PyDict.keys.
      rewrite map_app, <- app_assoc. exact H.
Qed.

Lemma store_attributes_untouched (l : list Attribute') A (d : pydict value') k :
  ~ In k (map (@name _) l) ->
  PyDict.get (snd (store_attributes l A d)) k = PyDict.get d k.
Proof.
  revert A d; induction l as [|a l IH]; intros A d H; simpl; [reflexivity|].
  simpl in H. rewrite IH by tauto.
  destruct (is_Attribute _); [|reflexivity].
  rewrite get_set. destruct (String.eqb (name a) k) eqn:E; [|reflexivity].
  apply String.eqb_eq in E. tauto.
Qed.

Lemma misdefined_None (items : pydict value') (A : pydict Attribute') :
  misdefined items A = None ->
  forall k v, In (k, v) items -> is_Attribute v = true ->
              In k (PyDict.keys A).
Proof.
  induction items as [|[n v0] items IH]; simpl; intros H k v Hin Hv; [tauto|].
  destruct (is_Attribute v0 && negb (PyDict.mem A n)) eqn:E; [discriminate|].
  destruct Hin as [[= -> ->]|Hin]; [|eauto].
  rewrite Hv in E. simpl in E. apply negb_false_iff in E.
  now apply mem_In.
Qed.

(** What the three loops leave when none of them raises. *)
Lemma wrap_returns (cls : classdef Obj World) pc :
  wrap cls = Return pc ->
  let l := map (attribute_of (cls_dict cls))
               (public_fields (cls_annotations cls)) in
  pipeline_attributes pc = fst (store_attributes l [] (cls_dict cls))
  /\ pc_dict pc = snd (store_attributes l [] (cls_dict cls))
  /\ misdefined (pc_dict pc) (pipeline_attributes pc) = None
  /\ pc_init_args pc = init_args (pipeline_attributes pc)
  /\ exec_init (pc_init_args pc) = Return (pc_init_args pc).
Proof.
  unfold wrap. rewrite find_attributes_spec.
  destruct (store_attributes _ _ _) as [A d] eqn:E.
  destruct (misdefined d A) eqn:Em; [discriminate|].
  destruct (exec_init (init_args A)) as [ps|] eqn:Ex; [|discriminate].
  intros [= <-]; simpl.
  assert (ps = init_args A) as ->.
  { unfold exec_init in Ex. destruct (nondefault_after_default _ _); [discriminate|].
    destruct (existsb _ _); [discriminate|]. now injection Ex. }
  repeat split; auto.
Qed.

Lemma wrap_check_passes (cls : classdef Obj World) pc :
  wrap cls = Return pc -> check_passes cls.
Proof.
  intros Hw. apply wrap_returns in Hw. cbv zeta in Hw.
  destruct Hw as (HA & Hd & Hm & _). unfold check_passes.
  now rewrite <- HA, <- Hd.
Qed.

(** A placeholder in the namespace is, once the check has passed, the name
    of one of the attributes. *)
Lemma placeholder_is_named (cls : classdef Obj World) k a :
  check_passes cls ->
  PyDict.get (cls_dict cls) k = Some (VAttribute a) ->
  In k (map (@name _) (map (attribute_of (cls_dict cls))
                           (public_fields (cls_annotations cls)))).
Proof.
  unfold check_passes. cbv zeta. set (l := map _ _). intros Hm Hk.
  destruct (in_dec string_dec k (map (@name _) l)) as [i|ni]; [exact i|].
  pose proof (store_attributes_untouched l [] (cls_dict cls) k ni) as Hu.
  rewrite Hk in Hu. apply get_In in Hu.
  pose proof (misdefined_None _ _ Hm _ _ Hu eq_refl) as Hin.
  apply store_attributes_keys in Hin.
  destruct Hin as [[]|Hin]. exact Hin.
Qed.

Lemma public_fields_keys annotations k :
  In k (PyDict.keys (public_fields annotations)) <->
  In k (PyDict.keys annotations) /\ startswith_underscore k = false.
Proof.
  unfold PyDict.keys, public_fields. rewrite !in_map_iff. split.
  - intros ([n t] & <- & Hin). apply filter_In in Hin as [Hin Hf].
    simpl in *. split; [exists (n, t); auto|]. now apply negb_true_iff.
  - intros [([n t] & <- & Hin) Hu]. exists (n, t). split; [reflexivity|].
    apply filter_In. split; [exact Hin|]. simpl in *. now rewrite Hu.
Qed.

Lemma public_fields_NoDup annotations :
  NoDup (PyDict.keys annotations) ->
  NoDup (PyDict.keys (public_fields annotations)).
Proof.
  unfold PyDict.keys, public_fields.
  induction annotations as [|[n t] rest IH]; simpl; intros H; [constructor|].
  inversion H as [|? ? Hn Hr]; subst.
  destruct (startswith_underscore n); simpl; [auto|].
  constructor; [|auto]. intros Hin. apply Hn.
  apply in_map_iff in Hin as (x & <- & Hx). apply filter_In in Hx as [Hx _].
  now apply in_map.
Qed.

Lemma attribute_of_cases (d : pydict value') f :
  (exists a, PyDict.get d (fst f) = Some (VAttribute a)
             /\ attribute_of d f = a)
  \/ (is_Attribute (getattr d (fst f)) = false
      /\ attribute_of d f =
         MkAttribute (fst f) (snd f) false "" (getattr d (fst f))).
Proof.
  unfold attribute_of, getattr.
  destruct (PyDict.get d (fst f)) as [v|].
  - destruct v; try (right; split; reflexivity). left. eauto.
  - right. destruct (String.eqb (fst f) "mro"); split; reflexivity.
Qed.

(** When the check passes, the attributes' names are the public annotated
    names, each once: with distinct annotated names, no two placeholders can
    share a name, and none can be named after something else. *)
Lemma names_are_fields (cls : classdef Obj World) :
  check_passes cls ->
  NoDup (PyDict.keys (cls_annotations cls)) ->
  Permutation (PyDict.keys (public_fields (cls_annotations cls)))
              (map (@name _) (map (attribute_of (cls_dict cls))
                                  (public_fields (cls_annotations cls)))).
Proof.
  intros Hw Hnd. apply NoDup_Permutation_bis.
  - now apply public_fields_NoDup.
  - unfold PyDict.keys. now rewrite !length_map.
  - intros k Hk. unfold PyDict.keys in Hk.
    apply in_map_iff in Hk as ([n t] & <- & Hin). simpl.
    destruct (attribute_of_cases (cls_dict cls) (n, t))
      as [(a & Ha & _)|(_ & Hplain)].
    + eapply placeholder_is_named; eassumption.
    + apply in_map_iff. exists (attribute_of (cls_dict cls) (n, t)).
      split; [now rewrite Hplain|now apply in_map].
Qed.

Lemma wrap_schema (cls : classdef Obj World) pc :
  wrap cls = Return pc ->
  NoDup (PyDict.keys (cls_annotations cls)) ->
  pipeline_attributes pc =
  map (fun a => (name a, a))
      (map (attribute_of (cls_dict cls)) (public_fields (cls_annotations cls))).
Proof.
  intros Hw Hnd.
  pose proof (names_are_fields (wrap_check_passes _ Hw) Hnd) as Hp.
  apply wrap_returns in Hw. cbv zeta in Hw. destruct Hw as (HA & _).
  rewrite HA. apply store_attributes_fresh. simpl.
  eapply Permutation_NoDup; [exact Hp|]. now apply public_fields_NoDup.
Qed.

Lemma wrap_schema_keys (cls : classdef Obj World) pc k :
  wrap cls = Return pc ->
  NoDup (PyDict.keys (cls_annotations cls)) ->
  In k (PyDict.keys (pipeline_attributes pc)) ->
  In k (PyDict.keys (cls_annotations cls)) /\ startswith_underscore k = false.
Proof.
  intros Hw Hnd Hk. rewrite (wrap_schema _ Hw Hnd) in Hk.
  unfold PyDict.keys in Hk. rewrite map_map in Hk. simpl in Hk.
  apply public_fields_keys.
  eapply Permutation_in;
    [symmetry; apply (names_are_fields (wrap_check_passes _ Hw) Hnd)|exact Hk].
Qed.

(** C8.  A class whose namespace holds a placeholder under a name it does
    not annotate is rejected with the [SyntaxError] "... has been defined but
    it's missing a type!". *)
Theorem placeholder_without_annotation_rejected :
  forall (cls : classdef Obj World) n a,
    NoDup (PyDict.keys (cls_annotations cls)) ->
    PyDict.get (cls_dict cls) n = Some (VAttribute a) ->
    PyDict.get (cls_annotations cls) n = None ->
    exists k, wrap cls = Raise (SyntaxError (MissingType (cls_repr cls) k)).
Proof.
  intros cls n a Hnd Hd Hann.
  assert (Hno : ~ check_passes cls).
  { intros Hc. apply get_None_iff in Hann. apply Hann.
    pose proof (placeholder_is_named _ Hc Hd) as Hin.
    eapply Permutation_in in Hin;
      [|symmetry; apply (names_are_fields Hc Hnd)].
    now apply public_fields_keys in Hin. }
  unfold check_passes in Hno. cbv zeta in Hno.
  unfold wrap. rewrite find_attributes_spec.
  destruct (store_attributes _ _ _) as [A d]. simpl in Hno.
  destruct (misdefined d A) as [k|]; [now exists k|tauto].
Qed.

End Definition_processing.


(** ** Constructing an instance *)

Section Construction.

Variable Obj : Type.
Variable World : Type.

Local Abbreviation value' := (value Obj World) (only parsing).
Local Abbreviation parameter' := (parameter Obj World) (only parsing).

Import PyDictFacts.

Lemma init_args_get (A : pydict (Attribute Obj World)) n :
  PyDict.get (init_args A) n =
  option_map (fun a => if required a then None else Some (default a))
             (PyDict.get A n).
Proof.
  induction A as [|[k a] A IH]; simpl; [reflexivity|].
  destruct (required a) eqn:Er; simpl; destruct (String.eqb k n); simpl;
    rewrite ?Er; auto.
Qed.

Lemma init_args_keys (A : pydict (Attribute Obj World)) :
  PyDict.keys (init_args A) = PyDict.keys A.
Proof.
  unfold PyDict.keys, init_args. rewrite map_map. apply map_ext.
  intros [k a]. now destruct (required a).
Qed.

Lemma fill_locals_get (ps : list parameter') bound n :
  PyDict.get (fill_locals ps bound) n =
  match PyDict.get ps n with
  | Some dflt =>
      Some match PyDict.get bound n, dflt with
           | Some v, _ => v
           | None, Some v => v
           | None, None => VNone
           end
  | None => None
  end.
Proof.
  induction ps as [|[k dflt] ps IH]; simpl; [reflexivity|].
  destruct (String.eqb k n) eqn:E; [|exact IH].
  apply String.eqb_eq in E. now subst.
Qed.

Lemma assign_fields_other names (locals d : pydict value') n :
  ~ In n names ->
  PyDict.get (assign_fields names locals d) n = PyDict.get d n.
Proof.
  revert d; induction names as [|k names IH]; intros d H; simpl; [reflexivity|].
  simpl in H. rewrite IH by tauto. rewrite get_set.
  destruct (String.eqb k n) eqn:E; [|reflexivity].
  apply String.eqb_eq in E. tauto.
Qed.

Lemma assign_fields_in names (locals d : pydict value') n :
  In n names ->
  PyDict.get (assign_fields names locals d) n = Some (local_value locals n).
Proof.
  revert d; induction names as [|k names IH]; intros d H; simpl; [destruct H|].
  destruct (in_dec string_dec n names) as [i|ni]; [now apply IH|].
  destruct H as [->|H]; [|tauto].
  rewrite assign_fields_other by exact ni.
  rewrite get_set. now rewrite String.eqb_refl.
Qed.

Lemma bind_keywords_get (ps : list parameter') b kwargs bound n :
  bind_keywords ps b kwargs = Return bound ->
  PyDict.get bound n =
  match PyDict.get b n with Some v => Some v | None => PyDict.get kwargs n end.
Proof.
  revert b; induction kwargs as [|[k v] rest IH]; intros b; simpl.
  - intros [= ->]. now destruct (PyDict.get bound n).
  - destruct (String.eqb k "self"); [discriminate|].
    destruct (negb (PyDict.mem ps k)); [discriminate|].
    destruct (PyDict.mem b k) eqn:Eb; [discriminate|].
    intros H. rewrite (IH _ H), get_app. simpl.
    destruct (PyDict.get b n) eqn:Eg; [reflexivity|].
    destruct (String.eqb k n) eqn:E; reflexivity.
Qed.

Lemma bind_keywords_raises (ps : list parameter') b kwargs e :
  bind_keywords ps b kwargs = Raise e -> exists t, e = TypeError t.
Proof.
  revert b; induction kwargs as [|[k v] rest IH]; intros b; simpl.
  - discriminate.
  - destruct (String.eqb k "self"); [intros [= <-]; eauto|].
    destruct (negb (PyDict.mem ps k)); [intros [= <-]; eauto|].
    destruct (PyDict.mem b k); [intros [= <-]; eauto|]. apply IH.
Qed.

Lemma bind_keywords_returns (ps : list parameter') b kwargs :
  ~ In "self" (PyDict.keys ps) ->
  NoDup (PyDict.keys kwargs) ->
  (forall k, In k (PyDict.keys kwargs) ->
     In k (PyDict.keys ps) /\ PyDict.get b k = None) ->
  exists bound, bind_keywords ps b kwargs = Return bound.
Proof.
  intros Hself.
  revert b; induction kwargs as [|[k v] rest IH]; intros b Hnd H; simpl.
  - eauto.
  - inversion Hnd as [|? ? Hk Hnd']; subst.
    destruct (H k (or_introl eq_refl)) as [Hin Hb].
    destruct (String.eqb k "self") eqn:Es.
    { apply String.eqb_eq in Es. subst k. contradiction. }
    apply mem_In in Hin. rewrite Hin. simpl.
    unfold PyDict.mem at 1. rewrite Hb.
    apply IH; [exact Hnd'|]. intros k' Hk'.
    destruct (H k' (or_intror Hk')) as [Hin' Hb']. split; [exact Hin'|].
    rewrite get_app, Hb'. simpl.
    destruct (String.eqb k k') eqn:E; [|reflexivity].
    apply String.eqb_eq in E. subst. contradiction.
Qed.

Lemma bind_keywords_returns_inv (ps : list parameter') b kwargs bound :
  bind_keywords ps b kwargs = Return bound ->
  NoDup (PyDict.keys kwargs)
  /\ forall k, In k (PyDict.keys kwargs) ->
       In k (PyDict.keys ps) /\ PyDict.get b k = None.
Proof.
  revert b; induction kwargs as [|[k v] rest IH]; intros b; simpl.
  - intros _. split; [constructor|intros k []].
  - destruct (String.eqb k "self"); [discriminate|].
    destruct (PyDict.mem ps k) eqn:Ep; [|discriminate]. simpl.
    destruct (PyDict.mem b k) eqn:Eb; [discriminate|].
    intros H. destruct (IH _ H) as [Hnd Hall].
    assert (Hbk : PyDict.get b k = None).
    { unfold PyDict.mem in Eb. now destruct (PyDict.get b k). }
    split.
    + constructor; [|exact Hnd]. intros Hin.
      destruct (Hall k Hin) as [_ Hg]. rewrite get_app, Hbk in Hg.
      simpl in Hg. now rewrite String.eqb_refl in Hg.
    + intros k' [<-|Hin].
      * split; [now apply mem_In|exact Hbk].
      * destruct (Hall k' Hin) as [Hp Hg]. split; [exact Hp|].
        rewrite get_app in Hg. now destruct (PyDict.get b k').
Qed.

Lemma missing_arguments_In (ps : list parameter') bound n :
  In n (missing_arguments ps bound) <->
  In (n, None) ps /\ PyDict.get bound n = None.
Proof.
  unfold missing_arguments. rewrite in_map_iff. split.
  - intros ([k dflt] & <- & Hin). apply filter_In in Hin as [Hin Hf].
    simpl in *. apply andb_prop in Hf as [Hm Hd].
    destruct dflt; [discriminate|]. split; [exact Hin|].
    unfold PyDict.mem in Hm. now destruct (PyDict.get bound k).
  - intros [Hin Hb]. exists (n, None). split; [reflexivity|].
    apply filter_In. split; [exact Hin|]. simpl.
    unfold PyDict.mem. now rewrite Hb.
Qed.

(** What a successful call has gone through. *)
Lemma construct_returns (pc : PipelineClass Obj World) self args kwargs inst :
  construct pc self args kwargs = Some (Return inst) ->
  exists bound,
    bind_keywords (pc_init_args pc) (bind_positional (pc_init_args pc) args)
                  kwargs = Return bound
    /\ (List.length args <= List.length (pc_init_args pc))%nat
    /\ missing_arguments (pc_init_args pc) bound = []
    /\ PyDict.get (fill_locals (pc_init_args pc) bound) "super" = None
    /\ PyDict.mem (fill_locals (pc_init_args pc) bound) "PipelineClass" = false
    /\ inst_dict inst =
       assign_fields (PyDict.keys (pipeline_attributes pc))
                     (fill_locals (pc_init_args pc) bound) [].
Proof.
  intros H. apply construct_Return in H as (locals & Hb & Hs & Hp & ->).
  revert Hb. unfold bind_arguments.
  destruct (bind_keywords _ _ _) as [bound|]; [|discriminate].
  destruct (_ <? _)%nat eqn:Hlen; [discriminate|].
  destruct (missing_arguments _ _) eqn:Em; [|discriminate].
  intros [= <-]. apply Nat.ltb_ge in Hlen. exists bound. auto 7.
Qed.

Lemma supplied_bound (pc : PipelineClass Obj World) args kwargs bound n :
  bind_keywords (pc_init_args pc) (bind_positional (pc_init_args pc) args)
                kwargs = Return bound ->
  PyDict.get bound n = supplied (pc_init_args pc) args kwargs n.
Proof.
  intros H. unfold supplied. now rewrite (@bind_keywords_get _ _ _ _ n H).
Qed.

Lemma field_of_instance (cls : classdef Obj World) pc self args kwargs inst n a :
  wrap cls = Return pc ->
  construct pc self args kwargs = Some (Return inst) ->
  PyDict.get (pipeline_attributes pc) n = Some a ->
  PyDict.get (inst_dict inst) n =
  Some match supplied (pc_init_args pc) args kwargs n with
       | Some v => v
       | None => default a
       end
  /\ (supplied (pc_init_args pc) args kwargs n = None -> required a = false).
Proof.
  intros Hw Hc Ha.
  apply wrap_returns in Hw. cbv zeta in Hw. destruct Hw as (_ & _ & _ & Hps & _).
  apply construct_returns in Hc as (bound & Hb & _ & Hm & _ & _ & Hd).
  pose proof (@supplied_bound pc args kwargs bound n Hb) as Hs.
  assert (Hp : PyDict.get (pc_init_args pc) n =
               Some (if required a then None else Some (default a))).
  { now rewrite Hps, init_args_get, Ha. }
  assert (Hreq : supplied (pc_init_args pc) args kwargs n = None ->
                 required a = false).
  { intros Hn. destruct (required a) eqn:Er; [|reflexivity]. exfalso.
    assert (Hin : In n (missing_arguments (pc_init_args pc) bound)).
    { apply missing_arguments_In. split; [now apply get_In|].
      now rewrite Hs. }
    rewrite Hm in Hin. destruct Hin. }
  split; [|exact Hreq].
  rewrite Hd, assign_fields_in.
  - unfold local_value. rewrite fill_locals_get, Hp, Hs. f_equal.
    destruct (supplied _ _ _ _) eqn:E; [reflexivity|].
    now rewrite (Hreq eq_refl).
  - apply mem_In. unfold PyDict.mem. now rewrite Ha.
Qed.

Lemma set_keys_NoDup (V : Type) (d : pydict V) k v :
  NoDup (PyDict.keys d) -> NoDup (PyDict.keys (PyDict.set d k v)).
Proof.
  induction d as [|[k' v'] d IH]; simpl; intros H.
  - repeat constructor. intros [].
  - inversion H as [|? ? Hk Hd]; subst.
    destruct (String.eqb k' k) eqn:E; simpl; [now constructor|].
    constructor; [|auto]. rewrite keys_set_In. intros [->|Hin]; [|tauto].
    now rewrite String.eqb_refl in E.
Qed.

Lemma store_attributes_NoDup (l : list (Attribute Obj World)) A
    (d : pydict value') :
  NoDup (PyDict.keys A) -> NoDup (PyDict.keys (fst (store_attributes l A d))).
Proof.
  revert A d; induction l as [|a l IH]; intros A d H; simpl; [exact H|].
  apply IH. now apply set_keys_NoDup.
Qed.

Lemma NoDup_get (V : Type) (d : pydict V) k v :
  NoDup (PyDict.keys d) -> In (k, v) d -> PyDict.get d k = Some v.
Proof.
  induction d as [|[k' v'] d IH]; simpl; intros H Hin; [destruct Hin|].
  inversion H as [|? ? Hk Hd]; subst.
  destruct Hin as [[= -> ->]|Hin]; [now rewrite String.eqb_refl|].
  destruct (String.eqb k' k) eqn:E; [|auto].
  apply String.eqb_eq in E; subst. exfalso. apply Hk.
  unfold PyDict.keys. now apply (in_map fst) in Hin.
Qed.

Lemma required_parameter (A : pydict (Attribute Obj World)) m :
  In (m, None) (init_args A) ->
  exists b, In (m, b) A /\ required b = true.
Proof.
  unfold init_args. rewrite in_map_iff. intros ([k b] & E & Hin).
  destruct (required b) eqn:Er; [|discriminate].
  injection E as ->. eauto.
Qed.

(** The signature of an accepted definition: one parameter per attribute,
    in the order of the schema, with distinct names, none of them [self]. *)
Lemma wrap_signature (cls : classdef Obj World) pc :
  wrap cls = Return pc ->
  PyDict.keys (pc_init_args pc) = PyDict.keys (pipeline_attributes pc)
  /\ NoDup (PyDict.keys (pipeline_attributes pc))
  /\ ~ In "self" (PyDict.keys (pc_init_args pc)).
Proof.
  intros Hw. apply wrap_returns in Hw. cbv zeta in Hw.
  destruct Hw as (HA & _ & _ & Hps & Hex).
  split; [now rewrite Hps, init_args_keys|]. split.
  - rewrite HA. apply store_attributes_NoDup. constructor.
  - intros Hin. unfold exec_init in Hex.
    destruct (nondefault_after_default _ _); [discriminate|].
    match type of Hex with
    | context [existsb ?f ?ps] => destruct (existsb f ps) eqn:Ee
    end; [discriminate|].
    apply not_true_iff_false in Ee. apply Ee, existsb_exists.
    unfold PyDict.keys in Hin.
    apply in_map_iff in Hin as (p & Hp1 & Hp2). exists p.
    split; [exact Hp2|]. rewrite Hp1. apply String.eqb_refl.
Qed.

(** Positional binding, read by position. *)
Lemma bind_positional_nth (ps : list parameter') args i n v :
  NoDup (PyDict.keys ps) ->
  nth_error (PyDict.keys ps) i = Some n ->
  nth_error args i = Some v ->
  PyDict.get (bind_positional ps args) n = Some v.
Proof.
  revert args i; induction ps as [|[k dflt] ps IH]; intros args i Hnd Hn Hv.
  - destruct i; discriminate.
  - inversion Hnd as [|? ? Hk Hnd']; subst.
    destruct args as [|a args]; [destruct i; discriminate|].
    destruct i as [|i]; simpl in *.
    + injection Hn as ->. injection Hv as ->. now rewrite String.eqb_refl.
    + destruct (String.eqb k n) eqn:E.
      * apply String.eqb_eq in E. subst k. exfalso. apply Hk.
        eapply nth_error_In; eassumption.
      * eapply IH; eassumption.
Qed.

Lemma bind_positional_Some (ps : list parameter') args n v :
  PyDict.get (bind_positional ps args) n = Some v ->
  exists i, nth_error (PyDict.keys ps) i = Some n
            /\ nth_error args i = Some v.
Proof.
  revert args; induction ps as [|[k dflt] ps IH]; intros [|a args]; simpl;
    try discriminate.
  destruct (String.eqb k n) eqn:E.
  - apply String.eqb_eq in E. subst k. intros [= ->]. now exists 0%nat.
  - intros H. destruct (IH _ H) as (i & Hi & Ha). now exists (S i).
Qed.

Lemma bind_positional_None (ps : list parameter') args n :
  NoDup (PyDict.keys ps) ->
  (PyDict.get (bind_positional ps args) n = None <->
   forall i, nth_error (PyDict.keys ps) i = Some n -> nth_error args i = None).
Proof.
  intros Hnd. split.
  - intros Hg i Hi. destruct (nth_error args i) as [v|] eqn:Ea; [|reflexivity].
    rewrite (@bind_positional_nth ps args i n v Hnd Hi Ea) in Hg. discriminate.
  - intros H. destruct (PyDict.get (bind_positional ps args) n) as [v|] eqn:E;
      [|reflexivity].
    apply bind_positional_Some in E as (i & Hi & Ha).
    rewrite (H i Hi) in Ha. discriminate.
Qed.

(** The constructor's own account of a call agrees with the account by
    position and keyword. *)
Lemma not_given_supplied (ps : list parameter') args kwargs n :
  NoDup (PyDict.keys ps) ->
  (not_given (PyDict.keys ps) args kwargs n <->
   supplied ps args kwargs n = None).
Proof.
  intros Hnd. unfold not_given, supplied.
  rewrite <- (@bind_positional_None ps args n Hnd).
  destruct (PyDict.get (bind_positional ps args) n); split.
  - intros [H _]. discriminate.
  - discriminate.
  - now intros [_ H].
  - auto.
Qed.

Lemma given_supplied (ps : list parameter') args kwargs n v :
  NoDup (PyDict.keys ps) ->
  (In n (PyDict.keys kwargs) ->
   PyDict.get (bind_positional ps args) n = None) ->
  given (PyDict.keys ps) args kwargs n v ->
  supplied ps args kwargs n = Some v.
Proof.
  intros Hnd Hk [(i & Hi & Ha)|Hkw]; unfold supplied.
  - now rewrite (@bind_positional_nth ps args i n v Hnd Hi Ha).
  - rewrite Hk; [exact Hkw|]. apply mem_In. unfold PyDict.mem. now rewrite Hkw.
Qed.

Lemma supplied_given (ps : list parameter') args kwargs n v :
  supplied ps args kwargs n = Some v ->
  given (PyDict.keys ps) args kwargs n v.
Proof.
  unfold supplied, given.
  destruct (PyDict.get (bind_positional ps args) n) as [v'|] eqn:E.
  - intros [= ->]. left. now apply bind_positional_Some.
  - intros H. now right.
Qed.

Lemma orderly_well_formed (ps : list parameter') args kwargs :
  NoDup (PyDict.keys ps) ->
  (orderly_call (PyDict.keys ps) args kwargs <->
   well_formed_call ps args kwargs).
Proof.
  intros Hnd. unfold orderly_call, well_formed_call, PyDict.keys.
  rewrite length_map. fold (PyDict.keys ps). fold (PyDict.keys kwargs).
  split; intros (Hl & Hk & H); (split; [exact Hl|split; [exact Hk|]]);
    intros k Hin; destruct (H k Hin) as [H1 H2]; (split; [exact H1|]);
    now apply (@bind_positional_None ps args k Hnd).
Qed.

(** When a call is well formed and gives every parameter without default a
    value, and no parameter hides [super] or [PipelineClass], the constructor
    returns. *)
Lemma construct_succeeds (pc : PipelineClass Obj World) self args kwargs :
  ~ In "self" (PyDict.keys (pc_init_args pc)) ->
  well_formed_call (pc_init_args pc) args kwargs ->
  (forall n, In (n, None) (pc_init_args pc) ->
             supplied (pc_init_args pc) args kwargs n <> None) ->
  PyDict.get (pc_init_args pc) "super" = None ->
  PyDict.get (pc_init_args pc) "PipelineClass" = None ->
  exists bound,
    bind_keywords (pc_init_args pc) (bind_positional (pc_init_args pc) args)
                  kwargs = Return bound
    /\ construct pc self args kwargs =
       Some (Return (MkInstance self
                 (assign_fields (PyDict.keys (pipeline_attributes pc))
                                (fill_locals (pc_init_args pc) bound) [])
                 (PipelineImpl_init self (pc_dict pc)))).
Proof.
  intros Hself (Hle & Hnd & Hk) Hall Hsuper Hpc.
  destruct (@bind_keywords_returns _ _ kwargs Hself Hnd Hk) as [bound Hb].
  exists bound. split; [exact Hb|].
  assert (Hmiss : missing_arguments (pc_init_args pc) bound = []).
  { destruct (missing_arguments _ _) as [|m rest] eqn:Em; [reflexivity|].
    exfalso.
    assert (Hin : In m (missing_arguments (pc_init_args pc) bound))
      by (rewrite Em; now left).
    apply missing_arguments_In in Hin as [Hin Hnone].
    apply (Hall m Hin).
    now rewrite <- (@supplied_bound pc args kwargs bound m Hb). }
  unfold construct, bind_arguments. rewrite Hb, Hmiss.
  assert (Hlen : (List.length (pc_init_args pc) <? List.length args)%nat
                 = false) by (apply Nat.ltb_ge; lia).
  rewrite Hlen.
  assert (Hshadow : forall k, PyDict.get (pc_init_args pc) k = None ->
            PyDict.get (fill_locals (pc_init_args pc) bound) k = None).
  { intros k Hk'. now rewrite fill_locals_get, Hk'. }
  rewrite (Hshadow _ Hsuper). unfold PyDict.mem. now rewrite (Hshadow _ Hpc).
Qed.

(** C5.  In an instance the constructor returned, the field of an attribute
    the call gave no value for (no positional argument at its position in
    the schema, no keyword of its name) holds the attribute's default, and
    the field of an attribute the call gave a value for, by position or by
    keyword, holds that value. *)
Theorem field_is_default_or_supplied :
  forall (cls : classdef Obj World) pc self args kwargs inst n a,
    wrap cls = Return pc ->
    construct pc self args kwargs = Some (Return inst) ->
    PyDict.get (pipeline_attributes pc) n = Some a ->
    (not_given (PyDict.keys (pipeline_attributes pc)) args kwargs n ->
       PyDict.get (inst_dict inst) n = Some (default a))
    /\ (forall v,
          given (PyDict.keys (pipeline_attributes pc)) args kwargs n v ->
          PyDict.get (inst_dict inst) n = Some v).
Proof.
  intros cls pc self args kwargs inst n a Hw Hc Ha.
  destruct (@field_of_instance cls pc self args kwargs inst n a Hw Hc Ha)
    as [Hf _].
  destruct (@wrap_signature cls pc Hw) as (Hkeys & Hnd & _).
  rewrite <- Hkeys in *.
  split.
  - intros Hn.
    apply (@not_given_supplied (pc_init_args pc) args kwargs n Hnd) in Hn.
    now rewrite Hf, Hn.
  - intros v Hv.
    apply construct_returns in Hc as (bound & Hb & _).
    destruct (@bind_keywords_returns_inv _ _ _ _ Hb) as [_ Hk].
    rewrite Hf, (@given_supplied (pc_init_args pc) args kwargs n v Hnd);
      [reflexivity| |exact Hv].
    intros Hin. exact (proj2 (Hk n Hin)).
Qed.

(** C10.  The attributes of a processed definition are, in the order of the
    annotations, one per annotated name that does not start with an
    underscore; a name that starts with one is no attribute, no parameter of
    the constructor and no field the constructor assigns. *)
Theorem underscored_fields_excluded :
  forall (cls : classdef Obj World) pc,
    NoDup (PyDict.keys (cls_annotations cls)) ->
    wrap cls = Return pc ->
    PyDict.values (pipeline_attributes pc) =
      map (attribute_of (cls_dict cls)) (public_fields (cls_annotations cls))
    /\ forall n, startswith_underscore n = true ->
         PyDict.get (pipeline_attributes pc) n = None
         /\ PyDict.get (pc_init_args pc) n = None
         /\ forall self args kwargs inst,
              construct pc self args kwargs = Some (Return inst) ->
              PyDict.get (inst_dict inst) n = None.
Proof.
  intros cls pc Hnd Hw. split.
  - rewrite (@wrap_schema _ _ cls pc Hw Hnd). unfold PyDict.values.
    rewrite map_map. simpl. apply map_id.
  - intros n Hn.
    assert (Hnot : ~ In n (PyDict.keys (pipeline_attributes pc))).
    { intros Hin. apply (@wrap_schema_keys _ _ cls pc n Hw Hnd) in Hin as [_ Hu].
      congruence. }
    repeat split.
    + now apply get_None_iff.
    + apply get_None_iff. apply wrap_returns in Hw. cbv zeta in Hw.
      destruct Hw as (_ & _ & _ & Hps & _). now rewrite Hps, init_args_keys.
    + intros self args kwargs inst Hc.
      apply construct_returns in Hc as (bound & _ & _ & _ & _ & _ & Hd).
      rewrite Hd. now rewrite assign_fields_other.
Qed.


End Construction.


(** ** The properties on concrete definitions *)

Section Concrete.

Import Samples.

Local Ltac distinct_names :=
  repeat constructor; simpl; intuition discriminate.

(** C4 as first stated fails: with one [Stage] applied to two functions, the
    second tagging call leaves the counter alone, and the function declared
    first has no lower order. *)
Lemma shared_stage_gives_equal_orders :
  snd (Stage_init "Shared" 7) = 8
  /\ exists oa ob,
       order_of (Stage_call shared (step "second")
                 : pyfunction obj world) = Some oa
       /\ order_of (Stage_call shared (step "first")
                    : pyfunction obj world) = Some ob
       /\ ~ oa < ob.
Proof.
  split; [reflexivity|]. exists 7, 7.
  split; [reflexivity|]. split; [reflexivity|]. lia.
Qed.

Lemma declared_earlier_lower_order_witness :
  exists a fa b fb,
    nth_error (fst (declare_all interleaved 1)) 0 = Some (a, fa)
    /\ nth_error (fst (declare_all interleaved 1)) 1 = Some (b, fb)
    /\ owner a <> owner b
    /\ exists oa ob, order_of fa = Some oa /\ order_of fb = Some ob /\ oa < ob.
Proof.
  do 4 eexists.
  split; [reflexivity|]. split; [reflexivity|]. split; [discriminate|].
  eapply (@declared_earlier_lower_order obj world interleaved 1 0 1);
    [reflexivity|reflexivity|lia].
Defined.

(** The run of the module's entry point. *)
Lemma start_runs_stages_in_order_witness :
  call_start MyPipeline.pipeline tt =
  Reply ["[Sync] Running..."; "Sync version 50"; "[Sync] Executed.";
         "[Build] Running..."; "Build Hello.txt"; "[Build] Executed.";
         "[Submit] Running..."; "Submit!"; "[Submit] Executed."]
        tt (Return tt)
  /\ map (@si_order _ _) (stages MyPipeline.pipeline) = [1; 2; 3]
  /\ List.length (stage_events (stages MyPipeline.pipeline)) = 6%nat.
Proof.
  assert (Hc : construct MyPipeline.PipelineClass_ MyPipeline.self []
                 MyPipeline.kwargs = Some (Return MyPipeline.pipeline))
    by reflexivity.
  assert (HR : Runs (stages MyPipeline.pipeline) tt
                    [["Sync version 50"]; ["Build Hello.txt"]; ["Submit!"]] tt).
  { repeat (eapply Runs_cons; [reflexivity|]). apply Runs_nil. }
  destruct (start_runs_stages_in_order _ _ _ _ Hc eq_refl HR)
    as (_ & _ & Hstart & _ & _ & Hlen).
  split; [exact Hstart|]. split; [reflexivity|exact Hlen].
Defined.

(** C1 as first stated fails: with a field called [start] the constructor
    returns, the stage's action would return, and yet [start()] on the
    instance raises [TypeError] without a single event. *)
Lemma start_hidden_by_a_field :
  construct (decorated Shadowing) ONone [] []
    = Some (Return (instance Shadowing []))
  /\ Runs (stages (instance Shadowing [])) 0%nat [["fetching"]] 1%nat
  /\ call_start (instance Shadowing []) 0%nat
     = Reply [] 0%nat (Raise (TypeError NotCallable))
  /\ call_start (instance Shadowing []) 0%nat
     <> Reply (run_log (stages (instance Shadowing [])) [["fetching"]])
              1%nat (Return tt).
Proof.
  split; [reflexivity|]. split.
  - eapply Runs_cons; [reflexivity|apply Runs_nil].
  - split; [reflexivity|]. intros H. discriminate H.
Qed.

Lemma start_stops_at_failing_stage_witness :
  start (instance Nightly []) 0%nat =
  Reply ["[Fetch] Running..."; "fetching"; "[Fetch] Executed.";
         "[Build] Running..."; "building"]
        1%nat (Raise (Raised (OError "compiler crashed"))).
Proof.
  apply (@start_stops_at_failing_stage obj world (instance Nightly [])
           [stage_of 0 "Fetch" 1] (stage_of 2 "Build" 3) [stage_of 3 "Ship" 4]
           0%nat [["fetching"]] 1%nat (Raised (OError "compiler crashed"))).
  - reflexivity.
  - eapply Runs_cons; [reflexivity|apply Runs_nil].
  - reflexivity.
Defined.


Lemma field_is_default_or_supplied_witness :
  PyDict.get (inst_dict MyPipeline.defaulted) "value"
    = Some (VStr "Default.txt")
  /\ PyDict.get (inst_dict MyPipeline.defaulted) "changelist"
    = Some (VInt 50)
  /\ PyDict.get (inst_dict positional) "target" = Some (VStr "docs").
Proof.
  pose proof (fun n a =>
    @field_is_default_or_supplied MyPipeline.obj MyPipeline.world
      MyPipeline.cls MyPipeline.PipelineClass_
      (MyPipeline.receiver [("changelist", VInt 50)]) []
      [("changelist", VInt 50)] MyPipeline.defaulted n a
      eq_refl eq_refl) as H.
  split; [|split].
  - apply (proj1 (H "value" (MkAttribute "value" "str" false ""
                               (VStr "Default.txt")) eq_refl)).
    split; [intros [|i] _; reflexivity|reflexivity].
  - apply (proj2 (H "changelist" (MkAttribute "changelist" "int" false ""
                                    VNone) eq_refl) (VInt 50)).
    right. reflexivity.
  - apply (proj2 (@field_is_default_or_supplied obj world Described
                    (decorated Described) ONone [VStr "docs"; VInt 2] []
                    positional "target" described_target
                    eq_refl eq_refl eq_refl) (VStr "docs")).
    left. exists 0%nat. split; reflexivity.
Defined.

Lemma placeholder_without_annotation_rejected_witness :
  exists k,
    wrap Untyped = Raise (SyntaxError (MissingType (cls_repr Untyped) k)).
Proof.
  apply (@placeholder_without_annotation_rejected obj world Untyped
           "changelist" (MkAttribute "changelist" "int" false "" VNone)).
  - distinct_names.
  - reflexivity.
  - reflexivity.
Defined.

Lemma underscored_fields_excluded_witness :
  PyDict.keys (pipeline_attributes (decorated Private)) = ["value"]
  /\ PyDict.values (pipeline_attributes (decorated Private)) =
       map (attribute_of (cls_dict Private))
           (public_fields (cls_annotations Private))
  /\ PyDict.get (pipeline_attributes (decorated Private)) "_cache" = None
  /\ PyDict.get (pc_init_args (decorated Private)) "_cache" = None
  /\ PyDict.get (inst_dict (instance Private [])) "_cache" = None.
Proof.
  assert (Hnd : NoDup (PyDict.keys (cls_annotations Private)))
    by distinct_names.
  destruct (@underscored_fields_excluded obj world Private (decorated Private)
              Hnd eq_refl) as [Hv Hu].
  destruct (Hu "_cache" eq_refl) as (H1 & H2 & H3).
  split; [reflexivity|]. split; [exact Hv|]. split; [exact H1|].
  split; [exact H2|]. exact (H3 ONone [] [] (instance Private []) eq_refl).
Defined.

(** C3.  [wrap] accepts a definition whose placeholder is marked required
    and carries the default 5; no [SyntaxError] is raised, the attribute is
    stored as it is and becomes a parameter without default. *)
Theorem required_with_default_accepted :
  wrap Conflicting = Return (decorated Conflicting)
  /\ PyDict.get (pipeline_attributes (decorated Conflicting)) "changelist"
       = Some required_with_default
  /\ required required_with_default = true
  /\ default required_with_default = VInt 5
  /\ pc_init_args (decorated Conflicting) =
       [("changelist", None); ("value", Some (VStr "Default.txt"))].
Proof.
  repeat split; reflexivity.
Qed.

(** An annotated field without a value is not required: its placeholder is
    built by [Attribute.__init__], and the call that omits it returns an
    instance whose field is [None]. *)
Example MyPipeline_without_changelist :
  exists inst,
    construct MyPipeline.PipelineClass_ (MyPipeline.receiver []) [] []
      = Some (Return inst)
    /\ PyDict.get (inst_dict inst) "changelist" = Some VNone
    /\ PyDict.get (inst_dict inst) "value" = Some (VStr "Default.txt").
Proof.
  eexists. repeat split; reflexivity.
Qed.

End Concrete.


(** * Further properties of the runtime *)

Section Runtime_more.

Variable Obj : Type.
Variable World : Type.

Local Abbreviation stage := (StageImpl Obj World) (only parsing).

Lemma for_each_stops (l1 l2 : list stage) s w outs w1 e :
  Runs l1 w outs w1 ->
  outcome (call_method (si_function s) [] [] w1) = Raise e ->
  for_each (l1 ++ s :: l2) (fun x => StageImpl_run x [] []) w =
  Reply (run_log l1 outs
           ++ running (si_name s)
           :: stdout (call_method (si_function s) [] [] w1))
        (world (call_method (si_function s) [] [] w1))
        (Raise e).
Proof.
  intros HR He. rewrite (for_each_app_returns (s :: l2) HR).
  cbv zeta. cbn [for_each]. unfold bind at 1 2 3.
  rewrite (StageImpl_run_raises s w1 He). reflexivity.
Qed.

(** Either every action returns, or there is a first one that raises. *)
Lemma Runs_or_stops (l : list stage) :
  forall w,
    (exists outs w', Runs l w outs w')
    \/ (exists l1 s l2 outs w1 e,
          l = (l1 ++ s :: l2)%list /\ Runs l1 w outs w1
          /\ outcome (call_method (si_function s) [] [] w1) = Raise e).
Proof.
  induction l as [|s l IH]; intros w.
  - left. exists [], w. constructor.
  - destruct (call_method (si_function s) [] [] w) as [out w1 [v|e]] eqn:Hc.
    + destruct (IH w1) as [(outs & w' & HR)
                          |(l1 & s' & l2 & outs & w2 & e & -> & HR & He)].
      * left. exists (out :: outs), w'. econstructor; eassumption.
      * right. exists (s :: l1), s', l2, (out :: outs), w2, e.
        repeat split; [|exact He]. econstructor; eassumption.
    + right. exists [], s, l, [], w, e.
      repeat split; [constructor|now rewrite Hc].
Qed.

(** X1.  [start] has exactly two ways to end: every action returned and it
    returns [None] after the full log, or some action raised after all the
    earlier ones returned and it raises that exception there.  It raises
    nothing of its own. *)
Theorem start_returns_or_stops :
  forall (inst : PipelineInstance Obj World) w,
    (exists outs w',
        Runs (stages inst) w outs w'
        /\ start inst w = Reply (run_log (stages inst) outs) w' (Return tt))
    \/ (exists l1 s l2 outs w1 e,
          stages inst = (l1 ++ s :: l2)%list
          /\ Runs l1 w outs w1
          /\ outcome (call_method (si_function s) [] [] w1) = Raise e
          /\ start inst w =
             Reply (run_log l1 outs
                      ++ running (si_name s)
                      :: stdout (call_method (si_function s) [] [] w1))
                   (world (call_method (si_function s) [] [] w1))
                   (Raise e)).
Proof.
  intros inst w. unfold start.
  destruct (Runs_or_stops (stages inst) w)
    as [(outs & w' & HR)|(l1 & s & l2 & outs & w1 & e & Hs & HR & He)].
  - left. exists outs, w'. split; [exact HR|now apply for_each_Runs].
  - right. exists l1, s, l2, outs, w1, e.
    repeat split; try assumption. rewrite Hs. now apply for_each_stops.
Qed.

(** X2.  The [i]-th decorator of a run tags its function with its own label
    and with the starting value of the counter plus [i], leaves the call
    behaviour alone, and the counter ends as many steps higher as there were
    decorators. *)
Theorem decorators_number_consecutively :
  forall (ds : list (declaration Obj World)) (n0 : Z) (i : nat) d,
    nth_error ds i = Some d ->
    snd (declare_all ds n0) = n0 + Z.of_nat (List.length ds)
    /\ exists f,
         nth_error (fst (declare_all ds n0)) i = Some (d, f)
         /\ fn_stage f = Some (label d, n0 + Z.of_nat i)
         /\ fn_call f = fn_call (action d).
Proof.
  induction ds as [|d0 ds IH]; intros n0 i d Hi.
  - destruct i; discriminate.
  - simpl. destruct (declare_all ds (n0 + 1)) as [rest n2] eqn:E.
    assert (Hn : n2 = n0 + 1 + Z.of_nat (List.length ds)).
    { clear -E. revert n0 rest n2 E.
      induction ds as [|d1 ds IHds]; intros n0 rest n2 E; simpl in E.
      - injection E as _ <-. simpl. lia.
      - destruct (declare_all ds (n0 + 1 + 1)) as [rest' n3] eqn:E'.
        injection E as _ <-. rewrite (IHds _ _ _ E'). simpl List.length. lia. }
    split; [simpl; lia|].
    destruct i as [|i]; simpl in Hi.
    + injection Hi as <-. eexists. split; [reflexivity|].
      split; [simpl; do 2 f_equal; lia|reflexivity].
    + destruct (IH (n0 + 1) i d Hi) as (_ & f & Hf & Hs & Hcall).
      rewrite E in Hf. exists f. split; [exact Hf|].
      split; [rewrite Hs; do 2 f_equal; lia|exact Hcall].
Qed.

(** X3.  Of [a < b], [a == b] and [b < a] exactly one holds for two stages,
    and [==] does not depend on the side. *)
Theorem StageImpl_trichotomy :
  forall a b : stage,
    (StageImpl_lt a b = true /\ StageImpl_eq a b = false
     /\ StageImpl_lt b a = false)
    \/ (StageImpl_lt a b = false /\ StageImpl_eq a b = true
        /\ StageImpl_lt b a = false /\ StageImpl_eq b a = true)
    \/ (StageImpl_lt a b = false /\ StageImpl_eq a b = false
        /\ StageImpl_lt b a = true).
Proof.
  intros a b. unfold StageImpl_lt, StageImpl_eq.
  destruct (Z.lt_trichotomy (si_order a) (si_order b)) as [H|[H|H]].
  - left. rewrite (proj2 (Z.ltb_lt _ _) H).
    rewrite (proj2 (Z.eqb_neq _ _)) by lia.
    rewrite (proj2 (Z.ltb_ge _ _)) by lia. auto.
  - right; left. rewrite H, Z.ltb_irrefl, Z.eqb_refl. auto.
  - right; right. rewrite (proj2 (Z.ltb_lt _ _) H).
    rewrite (proj2 (Z.eqb_neq _ _)) by lia.
    rewrite (proj2 (Z.ltb_ge _ _)) by lia. auto.
Qed.

Lemma insert_stage_filter (o : Z) (x : stage) l :
  filter (fun s => si_order s =? o) (insert_stage x l) =
  filter (fun s => si_order s =? o) (x :: l).
Proof.
  induction l as [|y l IH]; [reflexivity|].
  cbn [insert_stage]. unfold StageImpl_lt.
  destruct (si_order y <? si_order x) eqn:E; [|reflexivity].
  apply Z.ltb_lt in E. cbn [filter] in *. rewrite IH.
  destruct (si_order x =? o) eqn:Ex; [|reflexivity].
  apply Z.eqb_eq in Ex.
  now rewrite (proj2 (Z.eqb_neq (si_order y) o)) by lia.
Qed.

(** X4.  Sorting [__stages__] keeps stages of equal order in the order in
    which [getmembers] listed their methods: for each order, the stages
    carrying it are the same sequence before and after the sort. *)
Theorem equal_orders_keep_discovery_order :
  forall (self : Obj) (d : pydict (value Obj World)) (o : Z),
    filter (fun s => si_order s =? o) (PipelineImpl_init self d) =
    filter (fun s => si_order s =? o)
           (append_stages self (getmembers self d)).
Proof.
  intros self d o. unfold PipelineImpl_init.
  induction (append_stages self (getmembers self d)) as [|x l IH];
    [reflexivity|].
  cbn [sort_stages fold_right]. rewrite insert_stage_filter.
  cbn [filter]. fold (sort_stages l). now rewrite IH.
Qed.

Lemma insert_member_perm (x : string * method Obj World) l :
  Permutation (insert_member x l) (x :: l).
Proof.
  induction l as [|y l IH]; simpl; [reflexivity|].
  destruct (String.leb (fst x) (fst y)); [reflexivity|].
  rewrite IH. apply perm_swap.
Qed.

Lemma sorted_members_perm (l : list (string * method Obj World)) :
  Permutation (fold_right (@insert_member _ _) [] l) l.
Proof.
  induction l as [|x l IH]; simpl; [constructor|].
  rewrite insert_member_perm. now constructor.
Qed.

Lemma bound_methods_In (self : Obj) (d : pydict (value Obj World)) n m :
  In (n, m) (bound_methods self d) <->
  exists f, In (n, VFunction f) d
            /\ existsb (String.eqb n) PipelineImpl_names = false
            /\ m = Method f self.
Proof.
  induction d as [|[k v] d IH].
  - simpl. split; [tauto|]. intros (f & [] & _).
  - assert (Hskip : (forall f, v <> VFunction f) ->
              (In (n, m) (bound_methods self d) <->
               exists f, In (n, VFunction f) ((k, v) :: d)
                         /\ existsb (String.eqb n) PipelineImpl_names = false
                         /\ m = Method f self)).
    { intros Hv. rewrite IH. split; intros (f & Hin & H).
      - exists f. split; [now right|exact H].
      - exists f. split; [|exact H].
        destruct Hin as [[= -> ->]|Hin]; [now elim (Hv f)|exact Hin]. }
    destruct v as [| | | | |g|];
      try (cbn [bound_methods]; apply Hskip; intros f; discriminate).
    cbn [bound_methods].
    destruct (existsb (String.eqb k) PipelineImpl_names) eqn:Ek.
    + rewrite IH. split; intros (f & Hin & Hs & Hm).
      * exists f. split; [now right|auto].
      * exists f. split; [|auto].
        destruct Hin as [[= -> ->]|Hin]; [congruence|exact Hin].
    + cbn [In]. rewrite IH. split.
      * intros [E|(f & Hin & H)].
        -- injection E as ? ?; subst. exists g. split; [now left|auto].
        -- exists f. split; [now right|exact H].
      * intros (f & [E|Hin] & Hs & ->).
        -- injection E as ? ?; subst. now left.
        -- right. exists f. auto.
Qed.

Lemma append_stages_In (self : Obj) (ms : list (string * method Obj World)) s :
  In s (append_stages self ms) <->
  exists n m, In (n, m) ms /\ StageImpl_init self m = Some s.
Proof.
  induction ms as [|[k m0] ms IH]; cbn [append_stages].
  - split; [intros []|intros (n & m & [] & _)].
  - destruct (StageImpl_init self m0) as [s0|] eqn:E.
    + cbn [In]. rewrite IH. split.
      * intros [<-|(n & m & Hin & Hs)].
        -- exists k, m0. split; [now left|exact E].
        -- exists n, m. split; [now right|exact Hs].
      * intros (n & m & [E0|Hin] & Hs).
        -- left. injection E0 as ? ?; subst. congruence.
        -- right. exists n, m. auto.
    + rewrite IH. split; intros (n & m & Hin & Hs).
      * exists n, m. split; [now right|exact Hs].
      * exists n, m. split; [|exact Hs].
        destruct Hin as [E0|Hin]; [|exact Hin].
        injection E0 as ? ?; subst. congruence.
Qed.

(** X5.  [PipelineImpl.__init__], run on an object whose class namespace is
    [d], puts in [__stages__] exactly the functions of [d] that carry stage
    metadata and are not hidden by a name of [PipelineImpl] or
    [PipelineClass], each bound to the object with the name and order of its
    tag; untagged functions and other values never become stages. *)
Theorem stages_are_the_tagged_methods :
  forall (self : Obj) (d : pydict (value Obj World)) (s : stage),
    In s (PipelineImpl_init self d) <->
    exists n f nm o,
      In (n, VFunction f) d
      /\ existsb (String.eqb n) PipelineImpl_names = false
      /\ fn_stage f = Some (nm, o)
      /\ s = MkStageImpl nm o self (Method f self).
Proof.
  intros self d s. unfold PipelineImpl_init.
  assert (Hperm : forall x, In x (sort_stages
                     (append_stages self (getmembers self d))) <->
                   In x (append_stages self (getmembers self d))).
  { intros x. split; apply Permutation_in;
      [|symmetry]; apply sort_stages_perm. }
  rewrite Hperm, append_stages_In. unfold getmembers. split.
  - intros (n & m & Hin & Hs). apply filter_In in Hin as [Hin _].
    eapply Permutation_in in Hin; [|apply sorted_members_perm].
    apply bound_methods_In in Hin as (f & Hf & Hn & ->).
    unfold StageImpl_init in Hs. cbn [m_func] in Hs.
    destruct (fn_stage f) as [[nm o]|] eqn:Et; [|discriminate].
    injection Hs as <-. exists n, f, nm, o. auto.
  - intros (n & f & nm & o & Hf & Hn & Ht & ->).
    exists n, (Method f self). split.
    + apply filter_In. split.
      * eapply Permutation_in; [symmetry; apply sorted_members_perm|].
        apply bound_methods_In. exists f. auto.
      * unfold method_filter. cbn [snd m_func]. now rewrite Ht.
    + unfold StageImpl_init. cbn [m_func]. now rewrite Ht.
Qed.

End Runtime_more.


(** * Further properties of definition processing *)

Section Definition_more.

Variable Obj : Type.
Variable World : Type.

Local Abbreviation value' := (value Obj World) (only parsing).
Local Abbreviation Attribute' := (Attribute Obj World) (only parsing).
Local Abbreviation parameter' := (parameter Obj World) (only parsing).

Import PyDictFacts.

Lemma exec_init_raises (ps : list parameter') e :
  exec_init ps = Raise e ->
  (exists n, e = SyntaxError (NonDefaultAfterDefault n))
  \/ e = SyntaxError (DuplicateArgument "self").
Proof.
  unfold exec_init. destruct (nondefault_after_default ps false) as [n|].
  - intros [= <-]. left. now exists n.
  - destruct (existsb (fun p => String.eqb (fst p) "self") ps);
      [|discriminate].
    intros [= <-]. now right.
Qed.

(** The three ways [wrap] can fail. *)
Lemma wrap_raises_cases (cls : classdef Obj World) e :
  wrap cls = Raise e ->
  (exists k, e = SyntaxError (MissingType (cls_repr cls) k)
             /\ ~ check_passes cls)
  \/ (exists n, e = SyntaxError (NonDefaultAfterDefault n))
  \/ e = SyntaxError (DuplicateArgument "self").
Proof.
  unfold wrap, check_passes. rewrite find_attributes_spec. cbv zeta.
  destruct (store_attributes _ _ _) as [A d]. cbn [fst snd].
  destruct (misdefined d A) as [k|] eqn:Em.
  - intros [= <-]. left. exists k. split; [reflexivity|discriminate].
  - destruct (exec_init (init_args A)) as [ps|e'] eqn:Ex; [discriminate|].
    intros [= <-]. right. now apply exec_init_raises in Ex.
Qed.

Lemma set_In_other (V : Type) (d : pydict V) k0 v0 k v :
  In (k, v) (PyDict.set d k0 v0) -> k <> k0 -> In (k, v) d.
Proof.
  intros Hin Hne. induction d as [|[k' v'] d IH]; simpl in *.
  - destruct Hin as [E|[]]. injection E as ? ?; subst. congruence.
  - destruct (String.eqb k' k0) eqn:E0.
    + apply String.eqb_eq in E0. subst k'.
      destruct Hin as [E|Hin]; [|now right].
      injection E as ? ?; subst. congruence.
    + destruct Hin as [E|Hin]; [now left|right; auto].
Qed.

Lemma store_attributes_In (l : list Attribute') A (d : pydict value') k v :
  In (k, v) (snd (store_attributes l A d)) ->
  ~ In k (map (@name _) l) ->
  In (k, v) d.
Proof.
  revert A d; induction l as [|a l IH]; intros A d; simpl; [auto|].
  intros Hin Hk. apply IH in Hin; [|tauto].
  destruct (is_Attribute _); [|exact Hin].
  eapply set_In_other; [exact Hin|]. intros ->. tauto.
Qed.

Lemma misdefined_found (items : pydict value') (A : pydict Attribute') n :
  misdefined items A = Some n ->
  exists a, In (n, VAttribute a) items /\ ~ In n (PyDict.keys A).
Proof.
  induction items as [|[k v0] items IH]; simpl; [discriminate|].
  destruct (is_Attribute v0 && negb (PyDict.mem A k)) eqn:E.
  - intros [= ->]. apply andb_prop in E as [E1 E2].
    destruct v0 as [| | | |a| |]; try discriminate. exists a.
    split; [now left|]. rewrite <- mem_In. apply negb_true_iff in E2.
    now rewrite E2.
  - intros H. destruct (IH H) as (a & ? & ?). exists a. auto.
Qed.

(** X6.  [wrap] fails only with [SyntaxError], and only in three ways: a
    placeholder of the class stands under a name that is no attribute
    ("missing a type"), the generated signature has a parameter without
    default after one with a default, or a parameter is called [self].  The
    error of [Attribute.__init__] about required attributes with a default
    is never among them. *)
Theorem wrap_fails_in_three_ways :
  forall (cls : classdef Obj World) e,
    wrap cls = Raise e ->
    (exists k a,
        e = SyntaxError (MissingType (cls_repr cls) k)
        /\ In (k, VAttribute a) (cls_dict cls)
        /\ ~ In k (map (@name _)
                       (map (attribute_of (cls_dict cls))
                            (public_fields (cls_annotations cls)))))
    \/ (exists n, e = SyntaxError (NonDefaultAfterDefault n))
    \/ e = SyntaxError (DuplicateArgument "self").
Proof.
  intros cls e H.
  destruct (wrap_raises_cases _ H) as [(k & -> & _)|Hother]; [|now right].
  left. revert H. unfold wrap. rewrite find_attributes_spec.
  set (l := map _ _).
  destruct (store_attributes l [] (cls_dict cls)) as [A d] eqn:Es.
  destruct (misdefined d A) as [k'|] eqn:Em.
  - intros [= <-]. apply misdefined_found in Em as (a & Hin & Hk).
    assert (HA : A = fst (store_attributes l [] (cls_dict cls)))
      by now rewrite Es.
    assert (Hd : d = snd (store_attributes l [] (cls_dict cls)))
      by now rewrite Es.
    assert (Hn : ~ In k' (map (@name _) l)).
    { intros Hin'. apply Hk. rewrite HA. apply store_attributes_keys.
      now right. }
    exists k', a. split; [reflexivity|]. split; [|exact Hn].
    rewrite Hd in Hin. eapply store_attributes_In; eassumption.
  - destruct (exec_init _) as [ps|e'] eqn:Ex; [discriminate|].
    intros [= E]. apply exec_init_raises in Ex.
    destruct Ex as [(n & ->)| ->]; discriminate.
Qed.

Lemma nondefault_after_default_None (ps : list parameter') b :
  nondefault_after_default ps b = None ->
  (b = true -> forall n, ~ In (n, None) ps)
  /\ forall i j n,
       (i < j)%nat -> nth_error ps j = Some (n, None) ->
       exists m, nth_error ps i = Some (m, None).
Proof.
  revert b; induction ps as [|[k [v|]] ps IH]; intros b H; simpl in H.
  - split; [intros _ n []|]. intros i j n _ Hj. destruct j; discriminate.
  - destruct (IH true H) as [Hno _]. split.
    + intros _ n [Heq|Hin]; [discriminate|]. exact (Hno eq_refl n Hin).
    + intros i j n Hij Hj. destruct j as [|j]; [lia|]. simpl in Hj.
      apply nth_error_In in Hj. now elim (Hno eq_refl n).
  - destruct b; [discriminate|]. destruct (IH false H) as [_ Hord]. split.
    + discriminate.
    + intros i j n Hij Hj. destruct i as [|i]; [now exists k|].
      destruct j as [|j]; [lia|]. simpl in *.
      apply (Hord i j n); [lia|exact Hj].
Qed.

Lemma nondefault_after_default_Some (ps : list parameter') i j m v n :
  (i < j)%nat ->
  nth_error ps i = Some (m, Some v) ->
  nth_error ps j = Some (n, None) ->
  exists n', nondefault_after_default ps false = Some n'.
Proof.
  intros Hij Hi Hj.
  destruct (nondefault_after_default ps false) as [n'|] eqn:E; [eauto|].
  destruct (nondefault_after_default_None _ _ E) as [_ Hord].
  destruct (Hord i j n Hij Hj) as [m' Hm]. congruence.
Qed.

(** X7.  In the constructor of an accepted definition no required attribute
    comes after a defaulted one: every parameter before a parameter without
    default is itself without default. *)
Theorem required_parameters_come_first :
  forall (cls : classdef Obj World) pc i j n,
    wrap cls = Return pc ->
    (i < j)%nat ->
    nth_error (pc_init_args pc) j = Some (n, None) ->
    exists m, nth_error (pc_init_args pc) i = Some (m, None).
Proof.
  intros cls pc i j n Hw Hij Hj.
  apply wrap_returns in Hw. cbv zeta in Hw.
  destruct Hw as (_ & _ & _ & _ & Hex). unfold exec_init in Hex.
  destruct (nondefault_after_default (pc_init_args pc) false) eqn:E;
    [discriminate|].
  destruct (nondefault_after_default_None _ _ E) as [_ Hord]. eauto.
Qed.

Lemma checked_schema (cls : classdef Obj World) :
  check_passes cls ->
  NoDup (PyDict.keys (cls_annotations cls)) ->
  let l := map (attribute_of (cls_dict cls))
               (public_fields (cls_annotations cls)) in
  NoDup (map (@name _) l)
  /\ fst (store_attributes l [] (cls_dict cls)) =
     map (fun a => (name a, a)) l.
Proof.
  intros Hc Hnd l.
  assert (Hn : NoDup (map (@name _) l)).
  { eapply Permutation_NoDup; [exact (names_are_fields Hc Hnd)|].
    now apply public_fields_NoDup. }
  split; [exact Hn|]. now apply store_attributes_fresh.
Qed.

Lemma init_args_named_nth (l : list Attribute') i a :
  nth_error l i = Some a ->
  nth_error (init_args (map (fun a0 => (name a0, a0)) l)) i =
  Some (if required a then (name a, None)
        else (name a, Some (default a))).
Proof.
  revert i; induction l as [|a0 l IH]; intros [|i]; simpl;
    try discriminate.
  - now intros [= ->].
  - apply IH.
Qed.

(** X8.  When the placeholder check passes and, in the order of the
    annotations, an attribute that is not required comes before a required
    one, [wrap] raises the [SyntaxError] of the generated signature: the
    definition is rejected when it is processed, not when it is called. *)
Theorem required_after_default_rejected :
  forall (cls : classdef Obj World) i j a b,
    NoDup (PyDict.keys (cls_annotations cls)) ->
    check_passes cls ->
    nth_error (map (attribute_of (cls_dict cls))
                   (public_fields (cls_annotations cls))) i = Some a ->
    required a = false ->
    nth_error (map (attribute_of (cls_dict cls))
                   (public_fields (cls_annotations cls))) j = Some b ->
    required b = true ->
    (i < j)%nat ->
    exists n, wrap cls = Raise (SyntaxError (NonDefaultAfterDefault n)).
Proof.
  intros cls i j a b Hnd Hc Hi Ha Hj Hb Hij.
  destruct (checked_schema Hc Hnd) as [_ HA]. cbv zeta in HA.
  unfold check_passes in Hc. cbv zeta in Hc.
  unfold wrap. rewrite find_attributes_spec.
  set (l := map _ _) in *.
  destruct (store_attributes l [] (cls_dict cls)) as [A d]. cbn [fst snd] in *.
  rewrite Hc. subst A.
  destruct (@nondefault_after_default_Some
              (init_args (map (fun a0 => (name a0, a0)) l))
              i j (name a) (default a) (name b) Hij) as [n Hn].
  - rewrite (init_args_named_nth _ _ Hi). now rewrite Ha.
  - rewrite (init_args_named_nth _ _ Hj). now rewrite Hb.
  - exists n. unfold exec_init. now rewrite Hn.
Qed.

(** X9.  A definition with a public annotated field called [self] is never
    accepted: the generated [__init__] would have two parameters of that
    name. *)
Theorem field_called_self_rejected :
  forall (cls : classdef Obj World),
    NoDup (PyDict.keys (cls_annotations cls)) ->
    In "self" (PyDict.keys (public_fields (cls_annotations cls))) ->
    exists s, wrap cls = Raise (SyntaxError s).
Proof.
  intros cls Hnd Hself. destruct (wrap cls) as [pc|e] eqn:Hw.
  - exfalso.
    pose proof (@wrap_schema _ _ cls pc Hw Hnd) as Hs.
    pose proof (names_are_fields (wrap_check_passes _ Hw) Hnd) as Hp.
    apply wrap_returns in Hw. cbv zeta in Hw.
    destruct Hw as (_ & _ & _ & Hps & Hex).
    assert (Hin : In "self" (PyDict.keys (pc_init_args pc))).
    { rewrite Hps, init_args_keys, Hs. unfold PyDict.keys.
      rewrite map_map. cbn [fst].
      eapply Permutation_in; [exact Hp|exact Hself]. }
    unfold exec_init in Hex.
    destruct (nondefault_after_default _ _); [discriminate|].
    match type of Hex with
    | context [existsb ?f ?ps] => destruct (existsb f ps) eqn:Ee
    end; [discriminate|].
    apply not_true_iff_false in Ee. apply Ee, existsb_exists.
    unfold PyDict.keys in Hin.
    apply in_map_iff in Hin as (p & Hp1 & Hp2). exists p.
    split; [exact Hp2|]. rewrite Hp1. apply String.eqb_refl.
  - destruct (wrap_raises_cases _ Hw) as [(k & -> & _)|[(n & ->)| ->]]; eauto.
Qed.

Lemma keys_set_existing (V : Type) (d : pydict V) k v :
  In k (PyDict.keys d) -> PyDict.keys (PyDict.set d k v) = PyDict.keys d.
Proof.
  induction d as [|[k' v'] d IH]; simpl; [intros []|].
  destruct (String.eqb k' k) eqn:E; [reflexivity|].
  apply String.eqb_neq in E. intros [H|H]; [congruence|].
  simpl. f_equal. now apply IH.
Qed.

Lemma getattr_Attribute_In (d : pydict value') k :
  is_Attribute (getattr d k) = true -> In k (PyDict.keys d).
Proof.
  unfold getattr. intros H. apply mem_In. unfold PyDict.mem.
  destruct (PyDict.get d k); [reflexivity|].
  destruct (String.eqb k "mro"); discriminate.
Qed.

Lemma store_attributes_dict_keys (l : list Attribute') A (d : pydict value') :
  PyDict.keys (snd (store_attributes l A d)) = PyDict.keys d.
Proof.
  revert A d; induction l as [|a l IH]; intros A d; simpl; [reflexivity|].
  rewrite IH. destruct (is_Attribute _) eqn:E; [|reflexivity].
  apply keys_set_existing. now apply getattr_Attribute_In.
Qed.

Lemma store_attributes_dict_get (l : list Attribute') A (d : pydict value') k :
  NoDup (map (@name _) l) ->
  PyDict.get (snd (store_attributes l A d)) k =
  match PyDict.get (map (fun a => (name a, a)) l) k with
  | Some a =>
      if is_Attribute (getattr d k) then Some (default a)
      else PyDict.get d k
  | None => PyDict.get d k
  end.
Proof.
  revert A d; induction l as [|a l IH]; intros A d Hnd; [reflexivity|].
  inversion Hnd as [|? ? Hn Hnd']; subst.
  cbn [store_attributes map PyDict.get].
  destruct (String.eqb (name a) k) eqn:E.
  - apply String.eqb_eq in E. subst k.
    rewrite store_attributes_untouched by exact Hn.
    destruct (is_Attribute _); [|reflexivity].
    rewrite get_set. now rewrite String.eqb_refl.
  - rewrite (IH _ _ Hnd').
    assert (Hg : PyDict.get
                   (if is_Attribute (getattr d (name a))
                    then PyDict.set d (name a) (default a) else d) k
                 = PyDict.get d k).
    { destruct (is_Attribute _); [|reflexivity]. rewrite get_set.
      now rewrite E. }
    unfold getattr at 1. rewrite Hg. fold (getattr d k). reflexivity.
Qed.

(** X10.  After [wrap] has accepted a class, a name under which the class
    held a placeholder holds the default of the attribute of that name
    instead, every other entry of the namespace is what it was, and the
    names of the namespace keep their order. *)
Theorem placeholders_become_defaults :
  forall (cls : classdef Obj World) pc k,
    NoDup (PyDict.keys (cls_annotations cls)) ->
    wrap cls = Return pc ->
    PyDict.keys (pc_dict pc) = PyDict.keys (cls_dict cls)
    /\ (forall a0, PyDict.get (cls_dict cls) k = Some (VAttribute a0) ->
          exists a, PyDict.get (pipeline_attributes pc) k = Some a
                    /\ PyDict.get (pc_dict pc) k = Some (default a))
    /\ (is_Attribute (getattr (cls_dict cls) k) = false ->
        PyDict.get (pc_dict pc) k = PyDict.get (cls_dict cls) k).
Proof.
  intros cls pc k Hnd Hw.
  pose proof (wrap_check_passes _ Hw) as Hc.
  destruct (checked_schema Hc Hnd) as [Hn HA]. cbv zeta in Hn, HA.
  pose proof (@wrap_returns _ _ cls pc Hw) as Hr. cbv zeta in Hr.
  destruct Hr as (Hs & Hd & _).
  pose proof (@store_attributes_dict_get _ [] (cls_dict cls) k Hn) as Hg.
  rewrite <- Hd in Hg. rewrite HA in Hs. rewrite <- Hs in Hg.
  split; [rewrite Hd; apply store_attributes_dict_keys|]. split.
  - intros a0 Ha0.
    pose proof (placeholder_is_named _ Hc Ha0) as Hin.
    assert (Hk : In k (PyDict.keys (pipeline_attributes pc))).
    { rewrite Hs. unfold PyDict.keys. rewrite map_map. exact Hin. }
    match type of Hg with
    | context [match ?x with _ => _ end] => destruct x as [a|] eqn:Eg
    end.
    + exists a. split; [exact Eg|]. rewrite Hg.
      unfold getattr. now rewrite Ha0.
    + apply get_None_iff in Eg. contradiction.
  - intros Hplain. rewrite Hg, Hplain.
    match goal with
    | |- match ?x with _ => _ end = _ => now destruct x
    end.
Qed.

Lemma no_placeholder_getattr (d : pydict value') k :
  no_placeholder d -> is_Attribute (getattr d k) = false.
Proof.
  intros H. unfold getattr. destruct (PyDict.get d k) as [v|] eqn:E;
    [|now destruct (String.eqb k "mro")].
  apply get_In in E. exact (H _ _ E).
Qed.

Lemma attribute_of_plain (d : pydict value') f :
  is_Attribute (getattr d (fst f)) = false ->
  attribute_of d f = MkAttribute (fst f) (snd f) false "" (getattr d (fst f)).
Proof.
  unfold attribute_of. now destruct (getattr d (fst f)).
Qed.

Lemma store_attributes_plain (l : list Attribute') A (d : pydict value') :
  no_placeholder d -> snd (store_attributes l A d) = d.
Proof.
  intros H. revert A; induction l as [|a l IH]; intros A; simpl;
    [reflexivity|].
  rewrite (no_placeholder_getattr (name a) H). apply IH.
Qed.

Lemma misdefined_plain (d : pydict value') (A : pydict Attribute') :
  no_placeholder d -> misdefined d A = None.
Proof.
  induction d as [|[k v] d IH]; intros H; simpl; [reflexivity|].
  rewrite (H k v (or_introl eq_refl)). simpl. apply IH.
  intros k' v' Hin. apply (H k' v'). now right.
Qed.

Lemma init_args_plain (d : pydict value') (fields : pydict string) :
  no_placeholder d ->
  init_args (map (fun a => (name a, a)) (map (attribute_of d) fields)) =
  map (fun f => (fst f, Some (getattr d (fst f)))) fields.
Proof.
  intros H. induction fields as [|f fields IH]; simpl; [reflexivity|].
  rewrite IH, (attribute_of_plain d f (no_placeholder_getattr (fst f) H)).
  reflexivity.
Qed.

Lemma names_plain (d : pydict value') (fields : pydict string) :
  no_placeholder d ->
  map (@name _) (map (attribute_of d) fields) = PyDict.keys fields.
Proof.
  intros H. induction fields as [|f fields IH]; simpl; [reflexivity|].
  rewrite IH, (attribute_of_plain d f (no_placeholder_getattr (fst f) H)).
  reflexivity.
Qed.

Lemma all_defaulted (d : pydict value') (fields : pydict string) b :
  nondefault_after_default
    (map (fun f => (fst f, Some (getattr d (fst f)))) fields) b = None.
Proof.
  revert b; induction fields as [|f fields IH]; intros b; simpl; auto.
Qed.

Lemma plain_definition_wrap :
  forall (cls : classdef Obj World),
    NoDup (PyDict.keys (cls_annotations cls)) ->
    no_placeholder (cls_dict cls) ->
    ~ In "self" (PyDict.keys (public_fields (cls_annotations cls))) ->
    exists pc,
      wrap cls = Return pc
      /\ pc_dict pc = cls_dict cls
      /\ pc_init_args pc =
         map (fun f => (fst f, Some (getattr (cls_dict cls) (fst f))))
             (public_fields (cls_annotations cls)).
Proof.
  intros cls Hnd Hplain Hself.
  unfold wrap. rewrite find_attributes_spec.
  set (fields := public_fields (cls_annotations cls)) in *.
  set (l := map (attribute_of (cls_dict cls)) fields).
  assert (Hn : NoDup (map (@name _) l)).
  { unfold l. rewrite names_plain by exact Hplain.
    now apply public_fields_NoDup. }
  pose proof (@store_attributes_fresh _ _ l [] (cls_dict cls) Hn) as HA.
  pose proof (@store_attributes_plain l [] (cls_dict cls) Hplain) as Hd.
  destruct (store_attributes l [] (cls_dict cls)) as [A d].
  cbn [fst snd] in HA, Hd. subst A d.
  rewrite (misdefined_plain _ Hplain). cbn [app].
  unfold l. rewrite (init_args_plain fields Hplain).
  unfold exec_init. rewrite all_defaulted.
  match goal with
  | |- context [existsb ?f ?ps] => destruct (existsb f ps) eqn:Ee
  end.
  - exfalso. apply existsb_exists in Ee as (p & Hp & He).
    apply in_map_iff in Hp as (f & <- & Hf). cbn [fst] in He.
    apply String.eqb_eq in He. apply Hself. unfold PyDict.keys.
    rewrite <- He. now apply in_map.
  - eexists. repeat split.
Qed.


(** X11.  A class that uses no placeholder and has no public field called
    [self] is always accepted: its namespace is left as it is and every
    public annotated field becomes, in order, an optional parameter whose
    default is what [getattr(cls, field, None)] finds: the class-level
    value of the field, else the built-in [mro] for a field of that name,
    else [None].  No field is required. *)
Theorem plain_definition_accepted :
  forall (cls : classdef Obj World),
    NoDup (PyDict.keys (cls_annotations cls)) ->
    no_placeholder (cls_dict cls) ->
    ~ In "self" (PyDict.keys (public_fields (cls_annotations cls))) ->
    exists pc,
      wrap cls = Return pc
      /\ pc_dict pc = cls_dict cls
      /\ pc_init_args pc =
         map (fun f => (fst f, Some (getattr (cls_dict cls) (fst f))))
             (public_fields (cls_annotations cls)).
Proof.
  exact plain_definition_wrap.
Qed.

End Definition_more.


(** * Further properties of the constructor *)

Section Construction_more.

Variable Obj : Type.
Variable World : Type.

Local Abbreviation value' := (value Obj World) (only parsing).
Local Abbreviation parameter' := (parameter Obj World) (only parsing).

Import PyDictFacts.

(** X12.  For an accepted definition with no attribute called [super] or
    [PipelineClass], the constructor returns an instance exactly when the
    call is orderly (no more positional arguments than attributes, distinct
    attribute names as keywords, none of them already reached by a
    positional argument) and gives every required attribute a value, by
    position or by keyword. *)
Theorem construct_returns_iff :
  forall (cls : classdef Obj World) pc self args kwargs,
    wrap cls = Return pc ->
    PyDict.get (pipeline_attributes pc) "super" = None ->
    PyDict.get (pipeline_attributes pc) "PipelineClass" = None ->
    ((exists inst, construct pc self args kwargs = Some (Return inst))
     <->
     (orderly_call (PyDict.keys (pipeline_attributes pc)) args kwargs
      /\ forall m b, PyDict.get (pipeline_attributes pc) m = Some b ->
                     required b = true ->
                     exists v,
                       given (PyDict.keys (pipeline_attributes pc))
                             args kwargs m v)).
Proof.
  intros cls pc self args kwargs Hw Hsuper Hpc.
  pose proof (@wrap_returns _ _ cls pc Hw) as Hwr. cbv zeta in Hwr.
  destruct Hwr as (HA & _ & _ & Hps & _).
  destruct (@wrap_signature _ _ cls pc Hw) as (Hkeys & Hnd & Hself).
  rewrite <- Hkeys in *.
  split.
  - intros [inst Hc].
    apply construct_returns in Hc as (bound & Hb & Hle & Hmiss & _).
    destruct (@bind_keywords_returns_inv _ _ _ _ _ _ Hb) as [Hndk Hk].
    split.
    + apply (@orderly_well_formed _ _ (pc_init_args pc) args kwargs Hnd).
      split; [exact Hle|]. split; [exact Hndk|exact Hk].
    + intros m b Hm Hb'.
      assert (Hp : PyDict.get (pc_init_args pc) m = Some None).
      { now rewrite Hps, init_args_get, Hm; simpl; rewrite Hb'. }
      destruct (supplied (pc_init_args pc) args kwargs m) as [v|] eqn:Es.
      * exists v. now apply supplied_given.
      * exfalso.
        assert (Hin : In m (missing_arguments (pc_init_args pc) bound)).
        { apply missing_arguments_In. split; [now apply get_In|].
          now rewrite (@supplied_bound _ _ pc args kwargs bound m Hb). }
        rewrite Hmiss in Hin. destruct Hin.
  - intros [Ho Hall].
    assert (Hpos : forall k, In k (PyDict.keys kwargs) ->
              PyDict.get (bind_positional (pc_init_args pc) args) k = None).
    { intros k Hin. destruct Ho as (_ & _ & Hk).
      apply (@bind_positional_None _ _ (pc_init_args pc) args k Hnd).
      exact (proj2 (Hk k Hin)). }
    apply (@orderly_well_formed _ _ (pc_init_args pc) args kwargs Hnd) in Ho.
    assert (Hshadow : forall k, PyDict.get (pipeline_attributes pc) k = None ->
                                PyDict.get (pc_init_args pc) k = None).
    { intros k Hk'. now rewrite Hps, init_args_get, Hk'. }
    destruct (@construct_succeeds _ _ pc self args kwargs Hself Ho)
      as (bound & _ & Hc).
    + intros m Hin Hnone. rewrite Hps in Hin.
      apply required_parameter in Hin as (b & Hb1 & Hb2).
      apply NoDup_get in Hb1;
        [|rewrite HA; apply store_attributes_NoDup; constructor].
      destruct (Hall m b Hb1 Hb2) as [v Hv].
      rewrite (@given_supplied _ _ (pc_init_args pc) args kwargs m v Hnd)
        in Hnone; [discriminate|apply Hpos|exact Hv].
    + now apply Hshadow.
    + now apply Hshadow.
    + eauto.
Qed.

(** X13.  With no parameter called [super] (the body would call whatever
    value is bound to it), the constructor raises nothing but [TypeError],
    whatever the call. *)
Theorem construct_raises_only_TypeError :
  forall (pc : PipelineClass Obj World) self args kwargs e,
    PyDict.get (pc_init_args pc) "super" = None ->
    construct pc self args kwargs = Some (Raise e) ->
    exists t, e = TypeError t.
Proof.
  intros pc self args kwargs e _. unfold construct, bind_arguments.
  destruct (bind_keywords _ _ _) as [bound|e'] eqn:Hb.
  - destruct (_ <? _)%nat; [intros [= <-]; eauto|].
    destruct (missing_arguments _ _); [|intros [= <-]; eauto].
    destruct (PyDict.get _ "super") as [v|].
    + destruct v; try discriminate; intros [= <-]; eauto.
    + destruct (PyDict.mem _ "PipelineClass"); [intros [= <-]; eauto|].
      discriminate.
  - intros [= <-]. exact (@bind_keywords_raises _ _ _ _ _ _ Hb).
Qed.

Lemma assign_fields_keys names (locals d : pydict value') :
  NoDup names ->
  (forall n, In n names -> ~ In n (PyDict.keys d)) ->
  PyDict.keys (assign_fields names locals d) = (PyDict.keys d ++ names)%list.
Proof.
  revert d; induction names as [|n names IH]; intros d Hnd Hfresh; simpl.
  - now rewrite app_nil_r.
  - inversion Hnd as [|? ? Hn Hnd']; subst.
    rewrite IH; [|exact Hnd'|].
    + rewrite (@keys_set_fresh _ d n (local_value locals n)
                 (Hfresh n (or_introl eq_refl))).
      unfold PyDict.keys. rewrite map_app, <- app_assoc. reflexivity.
    + intros m Hm Hin. apply keys_set_In in Hin as [->|Hin]; [tauto|].
      exact (Hfresh m (or_intror Hm) Hin).
Qed.

Lemma schema_keys_NoDup (cls : classdef Obj World) pc :
  wrap cls = Return pc -> NoDup (PyDict.keys (pipeline_attributes pc)).
Proof.
  intros Hw. exact (proj1 (proj2 (@wrap_signature _ _ cls pc Hw))).
Qed.

(** X14.  An instance has one field per attribute of the definition and no
    other, in the order of the attributes. *)
Theorem instance_fields_are_the_attributes :
  forall (cls : classdef Obj World) pc self args kwargs inst,
    wrap cls = Return pc ->
    construct pc self args kwargs = Some (Return inst) ->
    PyDict.keys (inst_dict inst) = PyDict.keys (pipeline_attributes pc)
    /\ inst_self inst = self.
Proof.
  intros cls pc self args kwargs inst Hw Hc.
  pose proof (@schema_keys_NoDup cls pc Hw) as Hnd.
  assert (Hself : inst_self inst = self).
  { apply construct_Return in Hc as (locals & _ & _ & _ & ->). reflexivity. }
  apply construct_returns in Hc as (bound & _ & _ & _ & _ & _ & Hd).
  split; [|exact Hself].
  rewrite Hd, assign_fields_keys; [reflexivity|exact Hnd|].
  intros n _ [].
Qed.

(** X15.  Positional arguments go to the attributes in the order of the
    schema: in a returned instance the field of the [i]-th attribute holds
    the [i]-th positional argument. *)
Theorem positional_arguments_follow_the_schema :
  forall (cls : classdef Obj World) pc self args kwargs inst i n v,
    wrap cls = Return pc ->
    construct pc self args kwargs = Some (Return inst) ->
    nth_error (PyDict.keys (pipeline_attributes pc)) i = Some n ->
    nth_error args i = Some v ->
    PyDict.get (inst_dict inst) n = Some v.
Proof.
  intros cls pc self args kwargs inst i n v Hw Hc Hn Hv.
  pose proof (@schema_keys_NoDup cls pc Hw) as Hnd.
  pose proof (@wrap_returns _ _ cls pc Hw) as Hr. cbv zeta in Hr.
  destruct Hr as (_ & _ & _ & Hps & _).
  assert (Hin : In n (PyDict.keys (pipeline_attributes pc)))
    by (eapply nth_error_In; eassumption).
  apply mem_In in Hin. unfold PyDict.mem in Hin.
  destruct (PyDict.get (pipeline_attributes pc) n) as [a|] eqn:Ha;
    [|discriminate].
  destruct (@field_of_instance _ _ cls pc self args kwargs inst n a Hw Hc Ha)
    as [Hf _].
  rewrite Hf. f_equal. unfold supplied.
  rewrite (@bind_positional_nth _ _ (pc_init_args pc) args i n v);
    [reflexivity| | |exact Hv].
  - now rewrite Hps, init_args_keys.
  - now rewrite Hps, init_args_keys.
Qed.

(** X16.  When no attribute of an accepted definition is required and none
    is called [super] or [PipelineClass], calling the class without
    arguments returns an instance in which every attribute's field holds
    its default. *)
Theorem call_without_arguments_gives_defaults :
  forall (cls : classdef Obj World) pc self,
    wrap cls = Return pc ->
    (forall n a, PyDict.get (pipeline_attributes pc) n = Some a ->
                 required a = false) ->
    PyDict.get (pipeline_attributes pc) "super" = None ->
    PyDict.get (pipeline_attributes pc) "PipelineClass" = None ->
    exists inst,
      construct pc self [] [] = Some (Return inst)
      /\ forall n a, PyDict.get (pipeline_attributes pc) n = Some a ->
                     PyDict.get (inst_dict inst) n = Some (default a).
Proof.
  intros cls pc self Hw Hopt Hsuper Hpc.
  pose proof (@schema_keys_NoDup cls pc Hw) as Hnd.
  pose proof (@wrap_returns _ _ cls pc Hw) as Hr. cbv zeta in Hr.
  destruct Hr as (HA & _ & _ & Hps & _).
  destruct (@wrap_signature _ _ cls pc Hw) as (_ & _ & Hself).
  assert (Hshadow : forall k, PyDict.get (pipeline_attributes pc) k = None ->
                              PyDict.get (pc_init_args pc) k = None).
  { intros k Hk. now rewrite Hps, init_args_get, Hk. }
  destruct (@construct_succeeds _ _ pc self [] [] Hself) as (bound & _ & Hc).
  - split; [simpl; lia|]. split; [constructor|intros k []].
  - intros n Hin. exfalso. rewrite Hps in Hin.
    apply required_parameter in Hin as (b & Hb1 & Hb2).
    apply NoDup_get in Hb1; [|exact Hnd].
    rewrite (Hopt _ _ Hb1) in Hb2. discriminate.
  - now apply Hshadow.
  - now apply Hshadow.
  - eexists. split; [exact Hc|]. intros n a Ha.
    destruct (@field_of_instance _ _ cls pc self [] [] _ n a Hw Hc Ha)
      as [Hf _].
    rewrite Hf. f_equal. unfold supplied.
    destruct (pc_init_args pc) as [|[k d] ps]; reflexivity.
Qed.

End Construction_more.


(** * Processing a class a second time *)

Section Reprocessing.

Variable Obj : Type.
Variable World : Type.

Local Abbreviation parameter' := (parameter Obj World) (only parsing).

Import PyDictFacts.

Lemma accepted_has_no_self (cls : classdef Obj World) pc :
  wrap cls = Return pc ->
  NoDup (PyDict.keys (cls_annotations cls)) ->
  ~ In "self" (PyDict.keys (public_fields (cls_annotations cls))).
Proof.
  intros Hw Hnd Hself.
  pose proof (@wrap_schema _ _ cls pc Hw Hnd) as Hs.
  pose proof (names_are_fields (wrap_check_passes _ Hw) Hnd) as Hp.
  apply wrap_returns in Hw. cbv zeta in Hw.
  destruct Hw as (_ & _ & _ & Hps & Hex).
  assert (Hin : In "self" (PyDict.keys (pc_init_args pc))).
  { rewrite Hps, init_args_keys, Hs. unfold PyDict.keys.
    rewrite map_map. cbn [fst].
    eapply Permutation_in; [exact Hp|exact Hself]. }
  unfold exec_init in Hex.
  destruct (nondefault_after_default _ _); [discriminate|].
  match type of Hex with
  | context [existsb ?f ?ps] => destruct (existsb f ps) eqn:Ee
  end; [discriminate|].
  apply not_true_iff_false in Ee. apply Ee, existsb_exists.
  unfold PyDict.keys in Hin.
  apply in_map_iff in Hin as (p & Hp1 & Hp2). exists p.
  split; [exact Hp2|]. rewrite Hp1. apply String.eqb_refl.
Qed.

Lemma processed_namespace (cls : classdef Obj World) pc k :
  NoDup (PyDict.keys (cls_annotations cls)) ->
  wrap cls = Return pc ->
  PyDict.get (pc_dict pc) k =
  match PyDict.get (pipeline_attributes pc) k with
  | Some a =>
      if is_Attribute (getattr (cls_dict cls) k) then Some (default a)
      else PyDict.get (cls_dict cls) k
  | None => PyDict.get (cls_dict cls) k
  end.
Proof.
  intros Hnd Hw.
  pose proof (wrap_check_passes _ Hw) as Hc.
  destruct (checked_schema Hc Hnd) as [Hn HA]. cbv zeta in Hn, HA.
  pose proof (@wrap_returns _ _ cls pc Hw) as Hr. cbv zeta in Hr.
  destruct Hr as (Hs & Hd & _).
  pose proof (@store_attributes_dict_get _ _ _ [] (cls_dict cls) k Hn) as Hg.
  rewrite <- Hd in Hg. rewrite HA in Hs. rewrite <- Hs in Hg. exact Hg.
Qed.

(** X17.  Processing the class again after [wrap] has accepted it (its
    placeholders now replaced by values that are no placeholders) is
    accepted as well and leaves the namespace as it is; every attribute
    keeps its name and its default, but comes out inferred: not required
    and without description. *)
Theorem processing_again_keeps_defaults :
  forall (cls : classdef Obj World) pc n a,
    NoDup (PyDict.keys (cls_annotations cls)) ->
    wrap cls = Return pc ->
    no_placeholder (pc_dict pc) ->
    PyDict.get (pipeline_attributes pc) n = Some a ->
    exists pc' a',
      wrap (processed cls pc) = Return pc'
      /\ pc_dict pc' = pc_dict pc
      /\ PyDict.get (pipeline_attributes pc') n = Some a'
      /\ default a' = default a
      /\ required a' = false
      /\ description a' = "".
Proof.
  intros cls pc n a Hnd Hw Hplain Ha.
  destruct (@plain_definition_wrap _ _ (processed cls pc) Hnd Hplain
              (@accepted_has_no_self cls pc Hw Hnd)) as (pc' & Hw' & Hd' & _).
  assert (Hn : In n (PyDict.keys (public_fields (cls_annotations cls)))).
  { apply public_fields_keys. apply (@wrap_schema_keys _ _ cls pc n Hw Hnd).
    apply mem_In. unfold PyDict.mem. now rewrite Ha. }
  unfold PyDict.keys in Hn. apply in_map_iff in Hn as ([f ty] & Hf & Hin).
  cbn [fst] in Hf. subst f.
  pose proof (@no_placeholder_getattr _ _ (pc_dict pc) n Hplain) as Hgn.
  set (a' := MkAttribute n ty false "" (getattr (pc_dict pc) n)).
  assert (Ha' : PyDict.get (pipeline_attributes pc') n = Some a').
  { apply NoDup_get; [exact (@schema_keys_NoDup _ _ _ pc' Hw')|].
    rewrite (@wrap_schema _ _ (processed cls pc) pc' Hw' Hnd).
    apply in_map_iff. exists a'. split; [reflexivity|].
    apply in_map_iff. exists (n, ty). split; [|exact Hin].
    now apply attribute_of_plain. }
  exists pc', a'. repeat split; try assumption.
  subst a'. cbn [default].
  pose proof (@processed_namespace cls pc n Hnd Hw) as Hg. rewrite Ha in Hg.
  unfold getattr at 1. rewrite Hg.
  destruct (is_Attribute (getattr (cls_dict cls) n)) eqn:Eattr;
    [reflexivity|].
  fold (getattr (cls_dict cls) n).
  assert (Hinf : PyDict.get (pipeline_attributes pc) n =
                 Some (attribute_of (cls_dict cls) (n, ty))).
  { apply NoDup_get; [exact (@schema_keys_NoDup _ _ cls pc Hw)|].
    rewrite (@wrap_schema _ _ cls pc Hw Hnd).
    apply in_map_iff. exists (attribute_of (cls_dict cls) (n, ty)).
    split; [now rewrite attribute_of_plain|].
    apply in_map_iff. exists (n, ty). auto. }
  rewrite Ha in Hinf. injection Hinf as ->.
  now rewrite attribute_of_plain.
Qed.

End Reprocessing.

(** * Looking attributes up by field name *)

Section Schema_lookup.

Variable Obj : Type.
Variable World : Type.

Import PyDictFacts.

Lemma schema_lookup (cls : classdef Obj World) pc f ty :
  NoDup (PyDict.keys (cls_annotations cls)) ->
  wrap cls = Return pc ->
  In (f, ty) (public_fields (cls_annotations cls)) ->
  PyDict.get (pipeline_attributes pc)
             (name (attribute_of (cls_dict cls) (f, ty)))
  = Some (attribute_of (cls_dict cls) (f, ty)).
Proof.
  intros Hnd Hw Hin.
  apply NoDup_get; [exact (@schema_keys_NoDup _ _ cls pc Hw)|].
  rewrite (@wrap_schema _ _ cls pc Hw Hnd).
  apply in_map_iff. exists (attribute_of (cls_dict cls) (f, ty)).
  split; [reflexivity|]. apply in_map_iff. exists (f, ty). auto.
Qed.

(** X18.  In an accepted definition, looking a public annotated field up in
    the schema by its name finds: the attribute inferred from the
    annotation and from what [getattr(cls, field, None)] finds (not
    required, no description) when the class gives no placeholder for it,
    and the placeholder itself when the class gives one that carries the
    field's name. *)
Theorem attribute_found_under_field_name :
  forall (cls : classdef Obj World) pc f ty,
    NoDup (PyDict.keys (cls_annotations cls)) ->
    wrap cls = Return pc ->
    In (f, ty) (public_fields (cls_annotations cls)) ->
    (is_Attribute (getattr (cls_dict cls) f) = false ->
     PyDict.get (pipeline_attributes pc) f =
     Some (MkAttribute f ty false "" (getattr (cls_dict cls) f)))
    /\ (forall a, PyDict.get (cls_dict cls) f = Some (VAttribute a) ->
                  name a = f ->
                  PyDict.get (pipeline_attributes pc) f = Some a).
Proof.
  intros cls pc f ty Hnd Hw Hin.
  pose proof (@schema_lookup cls pc f ty Hnd Hw Hin) as Hl. split.
  - intros Hplain.
    rewrite (@attribute_of_plain _ _ (cls_dict cls) (f, ty) Hplain) in Hl.
    exact Hl.
  - intros a Ha Hname.
    assert (E : attribute_of (cls_dict cls) (f, ty) = a).
    { unfold attribute_of, getattr. cbn [fst]. now rewrite Ha. }
    rewrite E, Hname in Hl. exact Hl.
Qed.

(** X19.  The attribute names of an accepted definition are its public
    annotated names, each once, whatever names its placeholders carry; when
    every placeholder carries the name of its field they also come in the
    order of the annotations. *)
Theorem attribute_names_are_the_public_fields :
  forall (cls : classdef Obj World) pc,
    NoDup (PyDict.keys (cls_annotations cls)) ->
    wrap cls = Return pc ->
    Permutation (PyDict.keys (pipeline_attributes pc))
                (PyDict.keys (public_fields (cls_annotations cls)))
    /\ ((forall f a, PyDict.get (cls_dict cls) f = Some (VAttribute a) ->
                     name a = f) ->
        PyDict.keys (pipeline_attributes pc) =
        PyDict.keys (public_fields (cls_annotations cls))).
Proof.
  intros cls pc Hnd Hw.
  pose proof (names_are_fields (wrap_check_passes _ Hw) Hnd) as Hp.
  assert (Hk : PyDict.keys (pipeline_attributes pc) =
               map (@name _) (map (attribute_of (cls_dict cls))
                                  (public_fields (cls_annotations cls)))).
  { rewrite (@wrap_schema _ _ cls pc Hw Hnd). unfold PyDict.keys.
    now rewrite map_map. }
  split; [rewrite Hk; now symmetry|].
  intros Hnamed. rewrite Hk. unfold PyDict.keys. rewrite map_map.
  apply map_ext. intros [f ty].
  destruct (@attribute_of_cases _ _ (cls_dict cls) (f, ty))
    as [(a & Ha & ->)|(_ & ->)]; [|reflexivity].
  exact (Hnamed f a Ha).
Qed.

End Schema_lookup.

(** * The further properties on concrete definitions *)

Section Concrete_more.

Import Samples.

Local Ltac distinct_names :=
  repeat constructor; simpl; intuition discriminate.

Local Ltac plain_namespace :=
  let k := fresh "k" in
  let v := fresh "v" in
  let Hin := fresh "Hin" in
  intros k v Hin; cbv in Hin;
  repeat (destruct Hin as [Hin|Hin];
          [injection Hin as <- <-; reflexivity|]);
  destruct Hin.

Lemma Pipeline_forms_agree (cls : classdef obj world) :
  match Pipeline None with
  | inl decorator => inr (decorator cls)
  | inr r => inr r
  end = Pipeline (Some cls).
Proof. reflexivity. Qed.

Lemma decorators_number_consecutively_witness :
  snd (declare_all interleaved 1) = 1 + Z.of_nat (List.length interleaved)
  /\ exists f,
       nth_error (fst (declare_all interleaved 1)) 2 =
         Some (MkDeclaration "Nightly" "Build"
                 (failing "building" "compiler crashed"), f)
       /\ fn_stage f = Some ("Build", 1 + Z.of_nat 2)
       /\ fn_call f = fn_call (failing "building" "compiler crashed").
Proof.
  exact (@decorators_number_consecutively obj world interleaved 1 2
           (MkDeclaration "Nightly" "Build"
              (failing "building" "compiler crashed")) eq_refl).
Defined.

Lemma wrap_fails_in_three_ways_witness :
  (exists k a,
      SyntaxError (Obj:=obj) (MissingType (cls_repr Untyped) "changelist")
        = SyntaxError (MissingType (cls_repr Untyped) k)
      /\ In (k, VAttribute a) (cls_dict Untyped)
      /\ ~ In k (map (@name _)
                     (map (attribute_of (cls_dict Untyped))
                          (public_fields (cls_annotations Untyped)))))
  \/ (exists n,
        SyntaxError (Obj:=obj) (MissingType (cls_repr Untyped) "changelist")
          = SyntaxError (NonDefaultAfterDefault n))
  \/ SyntaxError (Obj:=obj) (MissingType (cls_repr Untyped) "changelist")
       = SyntaxError (DuplicateArgument "self").
Proof.
  exact (@wrap_fails_in_three_ways obj world Untyped _ eq_refl).
Defined.

Lemma required_parameters_come_first_witness :
  exists m, nth_error (pc_init_args (decorated BothRequired)) 0
            = Some (m, None).
Proof.
  apply (@required_parameters_come_first obj world BothRequired
           (decorated BothRequired) 0 1 "branch");
    [reflexivity|lia|reflexivity].
Defined.

Lemma required_after_default_rejected_witness :
  exists n, wrap Misordered = Raise (SyntaxError (NonDefaultAfterDefault n)).
Proof.
  apply (@required_after_default_rejected obj world Misordered 0 1
           (MkAttribute "value" "str" false "" (VStr "Default.txt"))
           required_changelist);
    [distinct_names|reflexivity|reflexivity|reflexivity|reflexivity
    |reflexivity|lia].
Defined.

Lemma field_called_self_rejected_witness :
  exists s, wrap SelfField = Raise (SyntaxError s).
Proof.
  apply (@field_called_self_rejected obj world SelfField);
    [distinct_names|now left].
Defined.

Lemma placeholders_become_defaults_witness :
  PyDict.keys (pc_dict (decorated Described)) = PyDict.keys (cls_dict Described)
  /\ (exists a,
        PyDict.get (pipeline_attributes (decorated Described)) "target" = Some a
        /\ PyDict.get (pc_dict (decorated Described)) "target"
           = Some (default a))
  /\ PyDict.get (pc_dict (decorated Described)) "target" = Some (VStr "all").
Proof.
  assert (Hnd : NoDup (PyDict.keys (cls_annotations Described)))
    by distinct_names.
  destruct (@placeholders_become_defaults obj world Described
              (decorated Described) "target" Hnd eq_refl) as (Hk & Hp & _).
  split; [exact Hk|]. split; [exact (Hp described_target eq_refl)|reflexivity].
Defined.

Lemma plain_definition_accepted_witness :
  (exists pc,
      wrap MyPipeline.cls = Return pc
      /\ pc_dict pc = cls_dict MyPipeline.cls
      /\ pc_init_args pc =
         [("changelist", Some VNone); ("value", Some (VStr "Default.txt"))])
  /\ (exists pc,
        wrap Resolution = Return pc
        /\ pc_dict pc = cls_dict Resolution
        /\ pc_init_args pc = [("mro", Some VTypeMro); ("depth", Some VNone)]).
Proof.
  split.
  - apply (@plain_definition_accepted MyPipeline.obj MyPipeline.world
             MyPipeline.cls).
    + distinct_names.
    + plain_namespace.
    + simpl. intuition discriminate.
  - apply (@plain_definition_accepted obj world Resolution).
    + distinct_names.
    + intros k v [].
    + simpl. intuition discriminate.
Defined.

Lemma construct_raises_only_TypeError_witness :
  exists t,
    TypeError (Obj:=obj) (MissingArguments ["changelist"]) = TypeError t.
Proof.
  exact (@construct_raises_only_TypeError obj world (decorated Required)
           ONone [] [] _ eq_refl eq_refl).
Defined.

Lemma construct_returns_iff_witness :
  (exists inst,
      construct (decorated Required) ONone [VInt 50] [] = Some (Return inst))
  /\ ~ (exists inst,
          construct (decorated Required) ONone [] [("value", VStr "x")]
            = Some (Return inst)).
Proof.
  pose proof (fun args kwargs =>
    @construct_returns_iff obj world Required (decorated Required) ONone
      args kwargs eq_refl eq_refl eq_refl) as H.
  split.
  - apply (proj2 (H [VInt 50] [])). split.
    + split; [simpl; lia|]. split; [constructor|intros k []].
    + intros m b Hm Hb. apply PyDictFacts.get_In in Hm.
      destruct Hm as [Hm|[Hm|[]]]; injection Hm as <- <-.
      * exists (VInt 50). left. exists 0%nat. split; reflexivity.
      * discriminate Hb.
  - intros Hc. apply (proj1 (H [] [("value", VStr "x")])) in Hc.
    destruct Hc as [_ Hall].
    destruct (Hall "changelist" required_changelist eq_refl eq_refl)
      as [v [(i & Hi & Ha)|Hk]].
    + destruct i; discriminate Ha.
    + discriminate Hk.
Defined.

Lemma instance_fields_are_the_attributes_witness :
  PyDict.keys (inst_dict MyPipeline.pipeline) = ["changelist"; "value"]
  /\ inst_self MyPipeline.pipeline = MyPipeline.self.
Proof.
  exact (@instance_fields_are_the_attributes MyPipeline.obj MyPipeline.world
           MyPipeline.cls MyPipeline.PipelineClass_ MyPipeline.self []
           MyPipeline.kwargs MyPipeline.pipeline eq_refl eq_refl).
Defined.

Lemma positional_arguments_follow_the_schema_witness :
  PyDict.get (inst_dict positional) "jobs" = Some (VInt 2).
Proof.
  exact (@positional_arguments_follow_the_schema obj world Described
           (decorated Described) ONone [VStr "docs"; VInt 2] [] positional
           1 "jobs" (VInt 2) eq_refl eq_refl eq_refl eq_refl).
Defined.

Lemma call_without_arguments_gives_defaults_witness :
  exists inst,
    construct (decorated Described) ONone [] [] = Some (Return inst)
    /\ forall n a,
         PyDict.get (pipeline_attributes (decorated Described)) n = Some a ->
         PyDict.get (inst_dict inst) n = Some (default a).
Proof.
  apply (@call_without_arguments_gives_defaults obj world Described
           (decorated Described) ONone);
    [reflexivity| |reflexivity|reflexivity].
  intros n a Hn. apply PyDictFacts.get_In in Hn.
  destruct Hn as [Hn|[Hn|[]]]; injection Hn as <- <-; reflexivity.
Defined.

Lemma processing_again_keeps_defaults_witness :
  exists pc' a',
    wrap (processed Described (decorated Described)) = Return pc'
    /\ pc_dict pc' = pc_dict (decorated Described)
    /\ PyDict.get (pipeline_attributes pc') "target" = Some a'
    /\ default a' = VStr "all"
    /\ required a' = false
    /\ description a' = "".
Proof.
  apply (@processing_again_keeps_defaults obj world Described
           (decorated Described) "target" described_target);
    [distinct_names|reflexivity|plain_namespace|reflexivity].
Defined.

Lemma attribute_found_under_field_name_witness :
  PyDict.get (pipeline_attributes (decorated Resolution)) "mro"
    = Some (MkAttribute "mro" "list" false "" VTypeMro)
  /\ PyDict.get (pipeline_attributes (decorated Resolution)) "depth"
    = Some (MkAttribute "depth" "int" false "" VNone)
  /\ PyDict.get (pipeline_attributes (decorated Described)) "jobs"
    = Some (MkAttribute "jobs" "int" false "" (VInt 4))
  /\ PyDict.get (pipeline_attributes (decorated Described)) "target"
    = Some described_target.
Proof.
  assert (Hnd : NoDup (PyDict.keys (cls_annotations Described)))
    by distinct_names.
  assert (Hnr : NoDup (PyDict.keys (cls_annotations Resolution)))
    by distinct_names.
  split; [|split; [|split]].
  - apply (proj1 (@attribute_found_under_field_name obj world Resolution
                    (decorated Resolution) "mro" "list" Hnr eq_refl
                    (or_introl eq_refl)) eq_refl).
  - apply (proj1 (@attribute_found_under_field_name obj world Resolution
                    (decorated Resolution) "depth" "int" Hnr eq_refl
                    (or_intror (or_introl eq_refl))) eq_refl).
  - apply (proj1 (@attribute_found_under_field_name obj world Described
                    (decorated Described) "jobs" "int" Hnd eq_refl
                    (or_intror (or_introl eq_refl))) eq_refl).
  - apply (proj2 (@attribute_found_under_field_name obj world Described
                    (decorated Described) "target" "str" Hnd eq_refl
                    (or_introl eq_refl)) described_target eq_refl eq_refl).
Defined.

Lemma attribute_names_are_the_public_fields_witness :
  PyDict.keys (pipeline_attributes (decorated Private)) = ["value"].
Proof.
  assert (Hnd : NoDup (PyDict.keys (cls_annotations Private)))
    by distinct_names.
  apply (proj2 (@attribute_names_are_the_public_fields obj world Private
                  (decorated Private) Hnd eq_refl)).
  intros f a Hf. apply PyDictFacts.get_In in Hf.
  destruct Hf as [Hf|[Hf|[]]]; discriminate Hf.
Defined.

End Concrete_more.

